(** * Document splitting, document store and vector index manager

    A shallow embedding of the ingestion core of the policy-analysis
    framework:

    - [src/data_pipeline/processing/document_chunker.py]  ([DocumentChunker])
    - [src/data_pipeline/processors/document_splitter.py] ([CharacterSplitter])
    - [src/models/document.py]                            ([Document])
    - [src/data_pipeline/datastore/document_store.py]     ([FileSystemDocumentStore])
    - [src/data_pipeline/datastore/vector_database.py]    ([VectorDatabaseManager])

    Python integers are [Z]; a Python [str] is a [string] whose characters
    stand for its code points; a [dict] with string keys is a [gmap string _].
    A [while] loop is a function with a fuel argument that returns [None]
    when the fuel runs out; the theorems about results give the fuel that is
    enough. *)

From Stdlib Require Import ZArith Lia Bool Ascii.
From stdpp Require Import base option list gmap strings pretty sorting.

Open Scope Z_scope.

#[local] Set Warnings "-register-all".

(** ** Python values and strings *)

Module Py.

(** [len(s)] *)
Definition len (s : string) : Z := Z.of_nat (String.length s).

(** The bound of a slice [s[a:b]] that Python computes from an index: a
    negative index counts from the end, and the result is clamped to
    [0 .. len(s)]. *)
Definition clamp_index (n i : Z) : Z :=
  if i <? 0 then Z.max (i + n) 0 else Z.min i n.

(** [s[a:b]] *)
Definition slice (s : string) (a b : Z) : string :=
  let lo := clamp_index (len s) a in
  let hi := clamp_index (len s) b in
  String.substring (Z.to_nat lo) (Z.to_nat (hi - lo)) s.

(** The values a document dict or a metadata dict can hold.  A float is
    its 64 bit pattern; a set is the list of its elements in iteration
    order. *)
Inductive value :=
| VNone
| VBool (b : bool)
| VInt (z : Z)
| VFloat (bits : Z)
| VStr (s : string)
| VList (l : list value)
| VSet (l : list value)
| VDict (l : list (string * value)).

(** [bool(v)]: the truth value of a Python object. *)
Definition truthy (v : value) : bool :=
  match v with
  | VNone => false
  | VBool b => b
  | VInt z => negb (z =? 0)
  | VFloat bits => negb (Z.land bits (2 ^ 63 - 1) =? 0)
  | VStr s => negb (String.eqb s "")
  | VList l | VSet l => match l with [] => false | _ => true end
  | VDict l => match l with [] => false | _ => true end
  end.

(** [isinstance(v, int)]; [bool] is a subclass of [int]. *)
Definition as_int (v : value) : option Z :=
  match v with
  | VInt z => Some z
  | VBool b => Some (Z.b2z b)
  | _ => None
  end.

(** [isinstance(v, (str, int, float, bool))] *)
Definition is_scalar (v : value) : bool :=
  match v with
  | VStr _ | VInt _ | VFloat _ | VBool _ => true
  | _ => false
  end.

(** [c.lower()] for one character: only the ASCII capitals change. *)
Definition lower_ascii (c : ascii) : ascii :=
  let n := nat_of_ascii c in
  if (65 <=? n)%nat && (n <=? 90)%nat then ascii_of_nat (n + 32) else c.

(** [s.lower()] *)
Fixpoint lower (s : string) : string :=
  match s with
  | EmptyString => EmptyString
  | String c s' => String (lower_ascii c) (lower s')
  end.

(** [s.endswith(suffix)] *)
Definition endswith (s suffix : string) : bool :=
  let n := String.length s in
  let m := String.length suffix in
  (m <=? n)%nat && String.eqb (String.substring (n - m) m s) suffix.

(** [s.replace(old, new)] for one-character [old] and [new]. *)
Fixpoint replace_char (old new : ascii) (s : string) : string :=
  match s with
  | EmptyString => EmptyString
  | String c s' =>
    String (if Ascii.eqb c old then new else c) (replace_char old new s')
  end.

Fixpoint lstrip_char (c : ascii) (s : string) : string :=
  match s with
  | EmptyString => EmptyString
  | String a s' => if Ascii.eqb a c then lstrip_char c s' else s
  end.

Fixpoint rstrip_char (c : ascii) (s : string) : string :=
  match s with
  | EmptyString => EmptyString
  | String a s' =>
    let r := rstrip_char c s' in
    if Ascii.eqb a c && String.eqb r "" then EmptyString else String a r
  end.

(** [s.strip(c)] for a one-character [c]. *)
Definition strip_char (c : ascii) (s : string) : string :=
  rstrip_char c (lstrip_char c s).

(** [s.rfind(c)]; [None] stands for [-1]. *)
Fixpoint rfind (c : ascii) (s : string) : option nat :=
  match s with
  | EmptyString => None
  | String a s' =>
    match rfind c s' with
    | Some i => Some (S i)
    | None => if Ascii.eqb a c then Some O else None
    end
  end.

(** [sep.join(l)] *)
Definition join (sep : string) (l : list string) : string := String.concat sep l.

End Py.

(** ** [DocumentChunker] (processing/document_chunker.py) *)

Module DocumentChunker.
Import Py.

(** What [__init__] writes to the logger. *)
Inductive log_record :=
| LogWarning_overlap_clamped (chunk_overlap chunk_size : Z)
| LogInfo_recursive_char (chunk_size chunk_overlap : Z)
| LogInfo_simple (chunk_size chunk_overlap : Z)
| LogError_unsupported_method (method : string)
| LogError_init_failed (method : string).

Inductive level := WARNING | INFO | ERROR.

Definition level_of (r : log_record) : level :=
  match r with
  | LogWarning_overlap_clamped _ _ => WARNING
  | LogInfo_recursive_char _ _ | LogInfo_simple _ _ => INFO
  | LogError_unsupported_method _ | LogError_init_failed _ => ERROR
  end.

Inductive exn := ValueError (msg : string).

Record t := mk {
  chunk_size : Z;
  chunk_overlap : Z;
  method : string;
  splitter : option unit  (* always [None]: the library splitter is a placeholder *)
}.

(** [DocumentChunker.__init__]: the log records written, and the chunker
    or the exception raised. *)
Definition __init__ (chunk_size chunk_overlap : Z) (method : string)
  : list log_record * (exn + t) :=
  let '(log, chunk_overlap') :=
    if chunk_overlap >=? chunk_size
    then ([LogWarning_overlap_clamped chunk_overlap chunk_size], 0)
    else ([], chunk_overlap) in
  let self := mk chunk_size chunk_overlap' method None in
  if String.eqb method "recursive_char" then
    (log ++ [LogInfo_recursive_char chunk_size chunk_overlap'], inr self)
  else if String.eqb method "simple" then
    (log ++ [LogInfo_simple chunk_size chunk_overlap'], inr self)
  else
    (log ++ [LogError_unsupported_method method; LogError_init_failed method],
     inl (ValueError ("Unsupported chunking method: " +:+ method))).

(** The [while] loop of [_simple_chunking]: [start_index] and [chunks] are
    the loop variables. *)
Fixpoint _simple_chunking_loop (fuel : nat) (self : t) (text : string)
    (start_index : Z) (chunks : list string) : option (list string) :=
  let text_len := len text in
  if start_index <? text_len then
    match fuel with
    | O => None
    | S fuel' =>
      let end_index := Z.min (start_index + chunk_size self) text_len in
      let chunks := chunks ++ [slice text start_index end_index] in
      let next_start := start_index + chunk_size self - chunk_overlap self in
      let next_start :=
        if next_start <=? start_index then start_index + chunk_size self
        else next_start in
      let start_index := next_start in
      if (start_index >=? text_len)
         && (len (List.last chunks "") <? chunk_size self)
         && (end_index =? text_len)
      then Some chunks
      else _simple_chunking_loop fuel' self text start_index chunks
    end
  else Some chunks.

Definition _simple_chunking (fuel : nat) (self : t) (text : string)
  : option (list string) :=
  _simple_chunking_loop fuel self text 0 [].

(** [split_text] for a [str] argument. *)
Definition split_text (fuel : nat) (self : t) (text : string)
  : option (list string) :=
  if len text <=? chunk_size self then Some [text]
  else if String.eqb (method self) "recursive_char" && bool_decide (is_Some (splitter self))
  then _simple_chunking fuel self text
  else if String.eqb (method self) "simple" then _simple_chunking fuel self text
  else Some [].

End DocumentChunker.

(** ** [Document] (models/document.py) *)

Module Document.
Import Py.

Record t := mk {
  id : string;
  content : string;
  metadata : gmap string value;
  source : option string;
  tags : list string;
  embedding : option (list Z);
  processed_at : option Z
}.

(** A document without its [id]: what is left when the identifier the
    constructor drew is set aside. *)
Definition without_id (d : t) : t :=
  mk "" (content d) (metadata d) (source d) (tags d) (embedding d) (processed_at d).

End Document.

(** ** [CharacterSplitter] (processors/document_splitter.py) *)

Module CharacterSplitter.
Import Py.

Inductive exn := ValueError (msg : string).

Record t := mk {
  config : gmap string value;
  chunk_size : Z;
  chunk_overlap : Z
}.

(** [CharacterSplitter.__init__] *)
Definition __init__ (config : option (gmap string value)) : exn + t :=
  let config := default ∅ config in
  let chunk_size := default (VInt 1000) (config !! "chunk_size") in
  let chunk_overlap := default (VInt 100) (config !! "chunk_overlap") in
  match as_int chunk_size with
  | None => inl (ValueError "'chunk_size' must be a positive integer.")
  | Some size =>
    if size <=? 0 then inl (ValueError "'chunk_size' must be a positive integer.")
    else
      match as_int chunk_overlap with
      | None => inl (ValueError "'chunk_overlap' must be a non-negative integer.")
      | Some overlap =>
        if overlap <? 0
        then inl (ValueError "'chunk_overlap' must be a non-negative integer.")
        else if overlap >=? size
        then inl (ValueError "'chunk_overlap' must be smaller than 'chunk_size'.")
        else inr (mk config size overlap)
      end
  end.

Section Split.

(** [uuid.uuid4()]: the identifier the generator returns at its [n]-th
    draw.  [Document(...)] without an [id] argument draws one; the number
    of draws made so far is the state threaded through the split. *)
Variable uuid4 : nat -> string.

(** The [Document(...)] built in the loop body for the window
    [start_index, end_index). *)
Definition make_chunk (document : Document.t) (chunk_seq : Z)
    (start_index end_index : Z) (draws : nat) : Document.t :=
  let chunk_content := slice (Document.content document) start_index end_index in
  let chunk_metadata :=
    <["chunk_end_index" := VInt end_index]>
      (<["chunk_start_index" := VInt start_index]>
        (<["chunk_sequence" := VInt chunk_seq]>
          (<["original_doc_id" := VStr (Document.id document)]>
            (Document.metadata document)))) in
  let source_or_unknown :=
    match Document.source document with
    | Some s => if String.eqb s "" then "unknown" else s
    | None => "unknown"
    end in
  Document.mk (uuid4 draws) chunk_content chunk_metadata
    (Some (source_or_unknown +:+ "_chunk_" +:+ pretty chunk_seq))
    (Document.tags document) None None.

(** The [while] loop of [split_document]; [start_index], [chunk_seq] and
    [chunks] are the loop variables, [draws] counts the identifiers drawn. *)
Fixpoint split_loop (fuel : nat) (self : t) (document : Document.t)
    (start_index chunk_seq : Z) (chunks : list Document.t) (draws : nat)
  : option (list Document.t * nat) :=
  let content := Document.content document in
  if start_index <? len content then
    match fuel with
    | O => None
    | S fuel' =>
      let end_index := Z.min (start_index + chunk_size self) (len content) in
      let chunk_doc := make_chunk document chunk_seq start_index end_index draws in
      let chunks := chunks ++ [chunk_doc] in
      let chunk_seq := chunk_seq + 1 in
      let start_index := start_index + (chunk_size self - chunk_overlap self) in
      if (start_index >=? len content) && (0 <? Z.of_nat (length chunks))
         && (end_index <? len content)
      then Some (chunks, S draws)
      else
        let start_index :=
          if (start_index >=? end_index) && (end_index <? len content)
          then end_index else start_index in
        split_loop fuel' self document start_index chunk_seq chunks (S draws)
    end
  else Some (chunks, draws).

(** [split_document] *)
Definition split_document (fuel : nat) (self : t) (document : Document.t)
    (draws : nat) : option (list Document.t * nat) :=
  if String.eqb (Document.content document) "" then Some ([], draws)
  else split_loop fuel self document 0 0 [] draws.

End Split.

(** The window a chunk records in its metadata. *)
Definition start_offset (d : Document.t) : option Z :=
  Document.metadata d !! "chunk_start_index" ≫= as_int.
Definition end_offset (d : Document.t) : option Z :=
  Document.metadata d !! "chunk_end_index" ≫= as_int.
Definition offsets (d : Document.t) : option (Z * Z) :=
  s ← start_offset d; e ← end_offset d; Some (s, e).

End CharacterSplitter.

(** ** The windows of a sliding split *)

(** [windows text_len size step start ws]: [ws] is the list of windows
    [(s, min (s + size) text_len)] for [s = start, start + step, ...] as long
    as [s < text_len]. *)
Inductive windows (text_len size step : Z) : Z -> list (Z * Z) -> Prop :=
| windows_done start :
    text_len <= start -> windows text_len size step start []
| windows_next start ws :
    start < text_len ->
    windows text_len size step (start + step) ws ->
    windows text_len size step start
      ((start, Z.min (start + size) text_len) :: ws).

(** A position is covered by a list of half-open windows. *)
Definition covered (ws : list (Z * Z)) (p : Z) : Prop :=
  ∃ w, w ∈ ws ∧ w.1 <= p < w.2.

(** ** [FileSystemDocumentStore] (datastore/document_store.py) *)

Module FileSystemDocumentStore.
Import Py.

(** The content argument of [save_document]: [str] or [bytes]. *)
Inductive content :=
| Str (s : string)
| Bytes (b : list Byte.byte).

(** [DataStorageError] is what the three methods raise from their [except]
    clauses; [ValueError] is what [urlparse] raises for a locator it refuses
    (an unbalanced bracket in the network location, say), which happens in
    [_get_storage_path] and so before any [try]. *)
Inductive exn :=
| DataStorageError (msg : string)
| ValueError.

(** The two fields of [urlparse(document_id)] the store reads. *)
Record ParseResult := mk_ParseResult {
  netloc : string;
  path : string
}.

(** What [json.dump] leaves in the file it writes to: the whole text, or
    the part written before it raised. *)
Inductive dump_result :=
| Dumped (file : list Byte.byte)
| DumpRaised (partial : list Byte.byte).

(** What [json.load] does with a file. *)
Inductive load_result :=
| Loaded (m : gmap string value)
| JSONDecodeError
| LoadRaised.

(** [pathlib]: a path below [base_path] is the text of its relative part;
    [name] is its last component and [suffix] the extension of the name. *)
Fixpoint path_name_from (p acc : string) : string :=
  match p with
  | EmptyString => acc
  | String c p' =>
    if Ascii.eqb c "/" then path_name_from p' ""
    else path_name_from p' (acc +:+ String c "")
  end.

Definition path_name (p : string) : string := path_name_from p "".

Definition path_suffix (p : string) : string :=
  let name := path_name p in
  match rfind "." name with
  | Some i =>
    if (0 <? i)%nat && (i <? String.length name - 1)%nat
    then String.substring i (String.length name - i) name
    else ""
  | None => ""
  end.

(** [storage_path.with_suffix(storage_path.suffix + '.meta.json')]: the
    suffix is replaced by itself followed by [.meta.json], which appends
    [.meta.json] to the path. *)
Definition meta_path_of (storage_path : string) : string :=
  storage_path +:+ ".meta.json".

Section Store.

(** Library functions the store calls.
    - [urlparse(document_id)]; [None] when it raises [ValueError];
    - [quote(s, safe='')];
    - what writing a [str] through a file opened with [encoding='utf-8']
      leaves in the file, and what reading a file in text mode returns
      ([None]: the read raises [UnicodeDecodeError]);
    - [json.dump] to a file and [json.load] from a file. *)
Variable urlparse : string -> option ParseResult.
Variable quote : string -> string.
Variable text_write : string -> list Byte.byte.
Variable text_read : list Byte.byte -> option string.
Variable json_dump : gmap string value -> dump_result.
Variable json_load : list Byte.byte -> load_result.

(** The file system is the map from the paths below [base_path] to the
    bytes of the file there; a write to it always succeeds. *)

(** [_get_storage_path]: the path below [base_path], or the exception of
    [urlparse]. *)
Definition _get_storage_path (document_id : string) : exn + string :=
  match urlparse document_id with
  | None => inl ValueError
  | Some parsed_id =>
    let domain := replace_char ":" "_" (netloc parsed_id) in
    let path_part :=
      String.substring 0 100
        (replace_char "%" "_" (quote (strip_char "/" (path parsed_id)))) in
    let sanitized_id := domain +:+ "/" +:+ path_part in
    let ext :=
      if endswith (lower document_id) ".pdf" then ".pdf"
      else if endswith (lower document_id) ".htm" || endswith (lower document_id) ".html"
      then ".html"
      else ".bin" in
    inr (sanitized_id +:+ ext)
  end.

(** What [f.write(content)] leaves in the file: the bytes themselves in
    mode ['wb'], the encoded text in mode ['w']. *)
Definition content_bytes (c : content) : list Byte.byte :=
  match c with
  | Bytes b => b
  | Str s => text_write s
  end.

(** [if metadata:] for an optional dict. *)
Definition metadata_given (metadata : option (gmap string value)) : bool :=
  match metadata with
  | Some m => negb (Nat.eqb (size m) 0)
  | None => false
  end.

(** [save_document]: the file system afterwards, and the exception raised,
    if any.  [_get_storage_path] is called before the [try]. *)
Definition save_document (files : gmap string (list Byte.byte)) (document_id : string)
    (c : content) (metadata : option (gmap string value))
  : gmap string (list Byte.byte) * option exn :=
  match _get_storage_path document_id with
  | inl e => (files, Some e)
  | inr storage_path =>
    let files := <[storage_path := content_bytes c]> files in
    match metadata with
    | Some m =>
      if metadata_given metadata then
        let meta_path := meta_path_of storage_path in
        match json_dump m with
        | Dumped file => (<[meta_path := file]> files, None)
        | DumpRaised partial =>
          (<[meta_path := partial]> files,
           Some (DataStorageError "Unexpected error saving document"))
        end
      else (files, None)
    | None => (files, None)
    end
  end.

(** [retrieve_document]: [inr None] is the not-found result. *)
Definition retrieve_document (files : gmap string (list Byte.byte)) (document_id : string)
  : exn + option (content * option (gmap string value)) :=
  match _get_storage_path document_id with
  | inl e => inl e
  | inr storage_path =>
    match files !! storage_path with
    | None => inr None
    | Some file =>
      let is_binary :=
        String.eqb (path_suffix storage_path) ".bin"
        || String.eqb (path_suffix storage_path) ".pdf" in
      let read := if is_binary then Some (Bytes file) else Str <$> text_read file in
      match read with
      | None => inl (DataStorageError "Unexpected error retrieving document")
      | Some c =>
        match files !! meta_path_of storage_path with
        | None => inr (Some (c, None))
        | Some meta_file =>
          match json_load meta_file with
          | Loaded m => inr (Some (c, Some m))
          | JSONDecodeError => inr (Some (c, None))
          | LoadRaised => inl (DataStorageError "Unexpected error retrieving document")
          end
        end
      end
    end
  end.

(** [delete_document]: the file system afterwards, and the value returned
    or the exception raised. *)
Definition delete_document (files : gmap string (list Byte.byte)) (document_id : string)
  : gmap string (list Byte.byte) * (exn + bool) :=
  match _get_storage_path document_id with
  | inl e => (files, inl e)
  | inr storage_path =>
    let meta_path := meta_path_of storage_path in
    match files !! storage_path with
    | Some _ => (delete meta_path (delete storage_path files), inr true)
    | None => (files, inr true)
    end
  end.

End Store.

End FileSystemDocumentStore.

(** ** [VectorDatabaseManager] (datastore/vector_database.py) *)

Module VectorDatabaseManager.
Import Py.

Inductive exn :=
| RetrievalError (msg : string)
| TypeError (msg : string).

(** The order of [str] values: code point by code point. *)
Definition str_le (a b : string) : Prop := String.leb a b = true.

#[global] Instance str_le_dec a b : Decision (str_le a b).
Proof. unfold str_le. apply _. Defined.

(** [sorted(l)] for a list of [str]. *)
Definition sorted (l : list string) : list string := merge_sort str_le l.

Definition as_str (v : value) : option string :=
  match v with VStr s => Some s | _ => None end.

(** [",".join(sorted(list(tags)))]: [None] when it raises [TypeError], which
    it does as soon as an element is not a [str]. *)
Definition join_sorted (tags : list value) : option string :=
  strs ← mapM as_str tags; Some (join "," (sorted strs)).

(** The metadata dict built in the loop body of [add_documents]. *)
Definition prepare_metadata (doc : gmap string value) (text_key id_key : string)
  : exn + gmap string value :=
  let metadata :=
    filter (λ kv : string * value,
              kv.1 ≠ text_key ∧ kv.1 ≠ id_key ∧ is_scalar kv.2 = true) doc in
  match doc !! "tags" with
  | Some (VList tags) | Some (VSet tags) =>
    match join_sorted tags with
    | Some s => inr (<["tags" := VStr s]> metadata)
    | None => inl (TypeError "sequence item: expected str instance")
    end
  | _ => inr metadata
  end.

Section Manager.

(** The embedding model and the vector backend.
    - [vector]: an embedding; [collection]: the state of the collection;
    - [py_str]: [str(doc_id)];
    - [encode]: [embedding_model.encode(texts).tolist()], [None] when it
      raises;
    - [upsert]: [collection.upsert(ids, embeddings, documents, metadatas)],
      the collection afterwards and whether the call returned;
    - [query]: [collection.query(query_embeddings, n_results, where,
      include)], [None] when it raises. *)
Variable vector : Type.
Variable collection : Type.
Variable py_str : value -> string.
Variable encode : list value -> option (list vector).
Variable upsert :
  collection -> list string -> list vector -> list value ->
  list (gmap string value) -> collection * bool.

(** The dict [collection.query] returns; a field is [None] when the key is
    missing. A distance is the bit pattern of a float. *)
Record query_result := mk_query_result {
  res_ids : option (list (list string));
  res_distances : option (list (list Z));
  res_metadatas : option (list (list (gmap string value)));
  res_documents : option (list (list string))
}.

Variable query :
  collection -> list vector -> Z -> option (gmap string value) ->
  option query_result.

(** The calls made to the embedding model and to the backend, in order. *)
Inductive call :=
| CallEncode (texts : list value)
| CallUpsert (ids : list string) (embeddings : list vector)
    (documents : list value) (metadatas : list (gmap string value))
| CallQuery (query_embeddings : list vector) (n_results : Z)
    (where_ : option (gmap string value)).

(** The [for doc in documents] loop of [add_documents]; [ids],
    [texts_to_embed] and [metadatas] are the lists it appends to. *)
Fixpoint collect (documents : list (gmap string value)) (text_key id_key : string)
    (ids : list string) (texts_to_embed : list value)
    (metadatas : list (gmap string value))
  : exn + (list string * list value * list (gmap string value)) :=
  match documents with
  | [] => inr (ids, texts_to_embed, metadatas)
  | doc :: documents' =>
    let doc_id := default VNone (doc !! id_key) in
    let text := default VNone (doc !! text_key) in
    if negb (truthy doc_id) || negb (truthy text)
    then collect documents' text_key id_key ids texts_to_embed metadatas
    else
      match prepare_metadata doc text_key id_key with
      | inl e => inl e
      | inr metadata =>
        collect documents' text_key id_key
          (ids ++ [py_str doc_id]) (texts_to_embed ++ [text])
          (metadatas ++ [metadata])
      end
  end.

(** [add_documents]: the calls made, the collection afterwards, and the
    exception raised, if any. *)
Definition add_documents (coll : collection) (documents : list (gmap string value))
    (text_key id_key : string) : list call * collection * option exn :=
  match documents with
  | [] => ([], coll, None)
  | _ =>
    match collect documents text_key id_key [] [] [] with
    | inl e => ([], coll, Some e)
    | inr (ids, texts_to_embed, metadatas) =>
      match ids with
      | [] => ([], coll, None)
      | _ =>
        match encode texts_to_embed with
        | None =>
          ([CallEncode texts_to_embed], coll,
           Some (RetrievalError "Failed to add documents to vector store"))
        | Some embeddings =>
          let calls :=
            [CallEncode texts_to_embed;
             CallUpsert ids embeddings texts_to_embed metadatas] in
          match upsert coll ids embeddings texts_to_embed metadatas with
          | (coll', true) => (calls, coll', None)
          | (coll', false) =>
            (calls, coll',
             Some (RetrievalError "Failed to add documents to vector store"))
          end
        end
      end
    end
  end.

(** One entry of the list [search] returns. *)
Record hit := mk_hit {
  hit_id : string;
  hit_distance : Z;
  hit_metadata : gmap string value;
  hit_document : string
}.

(** The [for i, doc_id in enumerate(ids)] loop of [search]; [None] when an
    index is out of range. *)
Fixpoint format_results (i : nat) (ids : list string) (distances : list Z)
    (metadatas : list (gmap string value)) (documents : list string)
  : option (list hit) :=
  match ids with
  | [] => Some []
  | doc_id :: ids' =>
    d ← distances !! i; m ← metadatas !! i; t ← documents !! i;
    rest ← format_results (S i) ids' distances metadatas documents;
    Some (mk_hit doc_id d m t :: rest)
  end.

(** [search]: the calls made and the result or the exception raised. *)
Definition search (coll : collection) (query_text : string) (n_results : Z)
    (filter_metadata : option (gmap string value))
  : list call * (exn + list hit) :=
  let failed := inl (RetrievalError "Vector search failed") in
  match encode [VStr query_text] with
  | None => ([CallEncode [VStr query_text]], failed)
  | Some query_embedding =>
    let calls :=
      [CallEncode [VStr query_text];
       CallQuery query_embedding n_results filter_metadata] in
    match query coll query_embedding n_results filter_metadata with
    | None => (calls, failed)
    | Some results =>
      match head (default [[]] (res_ids results)),
            head (default [[]] (res_distances results)),
            head (default [[]] (res_metadatas results)),
            head (default [[]] (res_documents results)) with
      | Some ids, Some distances, Some metadatas, Some documents =>
        match format_results 0 ids distances metadatas documents with
        | Some formatted_results => (calls, inr formatted_results)
        | None => (calls, failed)
        end
      | _, _, _, _ => (calls, failed)
      end
    end
  end.

End Manager.

End VectorDatabaseManager.

(** ** Derived notions used in the statements *)

(** The advance of the window from one iteration of [_simple_chunking] to
    the next: [chunk_size - chunk_overlap], or [chunk_size] when that would
    not move the window forward. *)
Definition chunker_step (self : DocumentChunker.t) : Z :=
  let size := DocumentChunker.chunk_size self in
  let overlap := DocumentChunker.chunk_overlap self in
  if size - overlap <=? 0 then size else size - overlap.

Definition window_text (text : string) (w : Z * Z) : string :=
  Py.slice text w.1 w.2.

(** What [CharacterSplitter.__init__] lets through. *)
Definition valid_splitter (self : CharacterSplitter.t) : Prop :=
  0 < CharacterSplitter.chunk_size self
  ∧ 0 <= CharacterSplitter.chunk_overlap self
  ∧ CharacterSplitter.chunk_overlap self < CharacterSplitter.chunk_size self.

(** The chunk documents [split_document] builds for a list of windows,
    numbered from [chunk_seq], the first one with the identifier of draw
    [draws]. *)
Fixpoint chunks_of (uuid4 : nat -> string) (document : Document.t)
    (chunk_seq : Z) (draws : nat) (ws : list (Z * Z)) : list Document.t :=
  match ws with
  | [] => []
  | w :: ws' =>
    CharacterSplitter.make_chunk uuid4 document chunk_seq w.1 w.2 draws
    :: chunks_of uuid4 document (chunk_seq + 1) (S draws) ws'
  end.

(** ** Concrete inputs for the examples *)

Module Example.

(** An identifier generator that never repeats itself. *)
Definition uuid4 (n : nat) : string := "uuid-" +:+ pretty n.

Definition doc (content : string) : Document.t :=
  Document.mk "d1" content ∅ (Some "a.txt") [] None None.

Definition splitter (chunk_size chunk_overlap : Z) : CharacterSplitter.t :=
  CharacterSplitter.mk
    (<["chunk_overlap" := Py.VInt chunk_overlap]> {["chunk_size" := Py.VInt chunk_size]})
    chunk_size chunk_overlap.

End Example.

(** ** Properties of a list of windows *)

(** Window [i] starts at [i * step] and ends [size] further on, or at the
    end of the text when that comes first. *)
Definition laid_out (ws : list (Z * Z)) (text_len size step : Z) : Prop :=
  ∀ (i : nat) w, ws !! i = Some w →
    w.1 = Z.of_nat i * step ∧ w.2 = Z.min (w.1 + size) text_len.

(** Overlap exactness as the specification words it: every consecutive
    pair, the last pair apart, overlaps by exactly [overlap]. *)
Definition overlap_exact_except_last (ws : list (Z * Z)) (overlap : Z) : Prop :=
  ∀ (i : nat) w w', ws !! i = Some w → ws !! S i = Some w' →
    is_Some (ws !! S (S i)) → w.2 - w'.1 = overlap.

(** Overlap exactness as the code has it: every consecutive pair whose
    first window is a full one overlaps by exactly [overlap]. *)
Definition overlap_exact_after_full (ws : list (Z * Z)) (text_len size overlap : Z)
  : Prop :=
  ∀ (i : nat) w w', ws !! i = Some w → ws !! S i = Some w' →
    w.1 + size <= text_len → w.2 - w'.1 = overlap.

(** The stop condition as the specification words it: no window follows
    one that ends at the end of the text. *)
Definition stops_at_first_end (ws : list (Z * Z)) (text_len : Z) : Prop :=
  ∀ (i : nat) w, ws !! i = Some w → w.2 = text_len → ws !! S i = None.

(** The stop condition as the code has it: a window is followed by another
    exactly when the next start is still inside the text. *)
Definition stops_at_next_start (ws : list (Z * Z)) (text_len step : Z) : Prop :=
  ∀ (i : nat) w, ws !! i = Some w →
    (is_Some (ws !! S i) ↔ w.1 + step < text_len).


(** ** What [add_documents] keeps of a document *)

(** The documents the loop of [add_documents] does not skip: those with a
    truthy id and a truthy text. *)
Definition has_id_and_text (text_key id_key : string) (doc : gmap string Py.value)
  : bool :=
  Py.truthy (default Py.VNone (doc !! id_key))
  && Py.truthy (default Py.VNone (doc !! text_key)).

(** The elements of a list- or set-valued [tags] field. *)
Definition tags_collection (doc : gmap string Py.value) : option (list Py.value) :=
  match doc !! "tags" with
  | Some (Py.VList tags) | Some (Py.VSet tags) => Some tags
  | _ => None
  end.

(** [md] is the flattened metadata of [doc]: only scalars; every entry is a
    field of [doc] outside the text and id keys, or the converted tags;
    every scalar field outside the two keys is kept; every other non-scalar
    field is dropped; list- or set-valued tags become the comma-joined
    string of their sorted elements. *)
Definition flattened (text_key id_key : string) (doc md : gmap string Py.value)
  : Prop :=
  map_Forall (λ _ v, Py.is_scalar v = true) md
  ∧ (∀ k v, md !! k = Some v →
       (k = "tags" ∧ is_Some (tags_collection doc))
       ∨ (doc !! k = Some v ∧ k ≠ text_key ∧ k ≠ id_key))
  ∧ (∀ k v, doc !! k = Some v → k ≠ text_key → k ≠ id_key →
       Py.is_scalar v = true → md !! k = Some v)
  ∧ (∀ k v, doc !! k = Some v → Py.is_scalar v = false →
       ¬ (k = "tags" ∧ is_Some (tags_collection doc)) → md !! k = None)
  ∧ (∀ tags, tags_collection doc = Some tags →
       ∃ strs sorted_strs,
         tags = Py.VStr <$> strs
         ∧ sorted_strs ≡ₚ strs
         ∧ Sorted VectorDatabaseManager.str_le sorted_strs
         ∧ md !! "tags" = Some (Py.VStr (Py.join "," sorted_strs))).

(** ** A small vector backend for the examples *)

Module ExampleBackend.
Import Py.

(** An embedding is a list of integers; the model embeds a [str] as its
    length. *)
Definition vector : Type := list Z.

Definition encode (texts : list value) : option (list vector) :=
  Some ((λ v, match v with VStr s => [len s] | _ => [] end) <$> texts).

Definition py_str (v : value) : string :=
  match v with
  | VStr s => s
  | VInt z => pretty z
  | _ => "?"
  end.

(** A record of the collection: id, embedding, text, metadata. *)
Definition record : Type := string * vector * value * gmap string value.

Definition collection : Type := list record.

Fixpoint zip4 (ids : list string) (embeddings : list vector) (documents : list value)
    (metadatas : list (gmap string value)) : list record :=
  match ids, embeddings, documents, metadatas with
  | i :: ids', e :: embeddings', d :: documents', m :: metadatas' =>
    (i, e, d, m) :: zip4 ids' embeddings' documents' metadatas'
  | _, _, _, _ => []
  end.

(** Insert or replace by id. *)
Definition upsert (coll : collection) (ids : list string) (embeddings : list vector)
    (documents : list value) (metadatas : list (gmap string value))
  : collection * bool :=
  let new := zip4 ids embeddings documents metadatas in
  (filter (λ r : record, r.1.1.1 ∉ ids) coll ++ new, true).

(** The query raises for a non-positive [n_results], as the Chroma backend
    does, and otherwise returns the first [n_results] records. *)
Definition query (coll : collection) (query_embeddings : list vector)
    (n_results : Z) (where_ : option (gmap string value))
  : option VectorDatabaseManager.query_result :=
  if n_results <=? 0 then None
  else
    let found := take (Z.to_nat n_results) coll in
    Some (VectorDatabaseManager.mk_query_result
            (Some [(λ r : record, r.1.1.1) <$> found])
            (Some [(λ _ : record, 0) <$> found])
            (Some [(λ r : record, r.2) <$> found])
            (Some [(λ r : record, match r.1.2 with VStr s => s | _ => "" end) <$> found])).

Definition doc1 : gmap string value :=
  <["tags" := VSet [VStr "interest_rates"; VStr "inflation"]]>
    (<["publication_date" := VStr "2023-01-01"]>
      (<["authors" := VList [VStr "a"; VStr "b"]]>
        (<["cleaned_text" := VStr "Federal reserve raises interest rates."]>
          {["url" := VStr "doc1"]}))).

End ExampleBackend.

(** [c in s] for a character [c]. *)
Fixpoint contains_char (c : ascii) (s : string) : bool :=
  match s with
  | EmptyString => false
  | String a s' => Ascii.eqb a c || contains_char c s'
  end.

(** ** Library functions for the store examples *)

Module ExampleStore.
Import Py.

(** [urlparse] on locators of the plain form [scheme://netloc/path], without
    query or fragment. *)
Definition after_scheme (document_id : string) : option string :=
  i ← String.index 0 "://" document_id;
  Some (String.substring (i + 3) (String.length document_id) document_id).

Definition urlparse_netloc (document_id : string) : string :=
  match after_scheme document_id with
  | Some rest =>
    match String.index 0 "/" rest with
    | Some j => String.substring 0 j rest
    | None => rest
    end
  | None => ""
  end.

Definition urlparse_path (document_id : string) : string :=
  match after_scheme document_id with
  | Some rest =>
    match String.index 0 "/" rest with
    | Some j => String.substring j (String.length rest) rest
    | None => ""
    end
  | None => document_id
  end.

(** [urlparse] refuses a network location that has one of the two brackets
    and not the other ([Invalid IPv6 URL]). *)
Definition urlparse (document_id : string)
  : option FileSystemDocumentStore.ParseResult :=
  let netloc := urlparse_netloc document_id in
  if xorb (contains_char "[" netloc) (contains_char "]" netloc) then None
  else Some (FileSystemDocumentStore.mk_ParseResult netloc (urlparse_path document_id)).

(** [quote(s, safe='')]: every byte but letters, digits and [_.-~] becomes
    [%XX]. *)
Definition unreserved (c : ascii) : bool :=
  let n := nat_of_ascii c in
  ((65 <=? n) && (n <=? 90) || (97 <=? n) && (n <=? 122) || (48 <=? n) && (n <=? 57)
   || (n =? 95) || (n =? 46) || (n =? 45) || (n =? 126))%nat.

Definition hex_digit (n : nat) : ascii :=
  ascii_of_nat (if (n <? 10)%nat then 48 + n else 55 + n).

Fixpoint quote (s : string) : string :=
  match s with
  | EmptyString => EmptyString
  | String c s' =>
    if unreserved c then String c (quote s')
    else
      let n := nat_of_ascii c in
      String "%" (String (hex_digit (n / 16)) (String (hex_digit (n mod 16)) (quote s')))
  end.

(** Text files of ASCII text: one byte per character; reading translates
    the line endings [\r\n] and [\r] to [\n]. *)
Definition text_write (s : string) : list Byte.byte := String.list_byte_of_string s.

Fixpoint universal_newlines (s : string) : string :=
  match s with
  | EmptyString => EmptyString
  | String c s' =>
    if Ascii.eqb c "013" then
      match s' with
      | String c' s'' =>
        if Ascii.eqb c' "010" then String "010" (universal_newlines s'')
        else String "010" (universal_newlines s')
      | EmptyString => String "010" EmptyString
      end
    else String c (universal_newlines s')
  end.

Definition text_read (file : list Byte.byte) : option string :=
  Some (universal_newlines (String.string_of_list_byte file)).

(** A stand-in for the [json] module on dicts of integers: the dict is
    written as the bit string of its code and read back from it; any other
    dict is not serialisable. *)
Fixpoint pos_to_bytes (p : positive) : list Byte.byte :=
  match p with
  | xH => []
  | xO p' => Byte.x30 :: pos_to_bytes p'
  | xI p' => Byte.x31 :: pos_to_bytes p'
  end.

Fixpoint bytes_to_pos (file : list Byte.byte) : option positive :=
  match file with
  | [] => Some xH
  | Byte.x30 :: file' => xO <$> bytes_to_pos file'
  | Byte.x31 :: file' => xI <$> bytes_to_pos file'
  | _ => None
  end.

Definition int_entries (m : gmap string value) : option (list (string * Z)) :=
  mapM (λ kv : string * value,
          match kv.2 with VInt z => Some (kv.1, z) | _ => None end)
       (map_to_list m).

Definition json_dump (m : gmap string value) : FileSystemDocumentStore.dump_result :=
  match int_entries m with
  | Some l => FileSystemDocumentStore.Dumped (pos_to_bytes (encode l))
  | None => FileSystemDocumentStore.DumpRaised []
  end.

Definition json_load (file : list Byte.byte) : FileSystemDocumentStore.load_result :=
  match bytes_to_pos file ≫= decode (A := list (string * Z)) with
  | Some l => FileSystemDocumentStore.Loaded (VInt <$> list_to_map l)
  | None => FileSystemDocumentStore.JSONDecodeError
  end.

Definition _get_storage_path
  : string -> FileSystemDocumentStore.exn + string :=
  FileSystemDocumentStore._get_storage_path urlparse quote.

Definition save_document :=
  FileSystemDocumentStore.save_document urlparse quote text_write json_dump.

Definition retrieve_document :=
  FileSystemDocumentStore.retrieve_document urlparse quote text_read json_load.

Definition delete_document :=
  FileSystemDocumentStore.delete_document urlparse quote.

End ExampleStore.

(** ** [BaseDocumentSplitter.split_documents] (processors/document_splitter.py) *)

Module BaseDocumentSplitter.

Section SplitDocuments.

(** The abstract method [split_document] of the subclass: from a document
    and the state it threads, the chunks it returns or the exception it
    raises, and the state afterwards. *)
Context {state exn : Type}.
Variable split_document : Document.t -> state -> (exn + list Document.t) * state.

(** The [for i, doc in enumerate(documents)] loop: the chunks of a document
    are appended to [all_chunks]; an exception is logged and the loop goes
    on with the next document. *)
Fixpoint split_documents_loop (documents : list Document.t)
    (all_chunks : list Document.t) (st : state) : list Document.t * state :=
  match documents with
  | [] => (all_chunks, st)
  | doc :: documents' =>
    match split_document doc st with
    | (inr chunks, st') => split_documents_loop documents' (all_chunks ++ chunks) st'
    | (inl _, st') => split_documents_loop documents' all_chunks st'
    end
  end.

(** [split_documents] *)
Definition split_documents (documents : list Document.t) (st : state)
  : list Document.t * state :=
  split_documents_loop documents [] st.

End SplitDocuments.

End BaseDocumentSplitter.

(** [split_document] of a [CharacterSplitter] as [split_documents] calls it:
    the loop is given the length of the content as fuel, which is enough
    for every splitter [__init__] lets through; it has no [raise]. *)
Definition character_split_document (uuid4 : nat -> string)
    (self : CharacterSplitter.t) (document : Document.t) (draws : nat)
  : (CharacterSplitter.exn + list Document.t) * nat :=
  match CharacterSplitter.split_document uuid4
          (String.length (Document.content document)) self document draws with
  | Some (chunks, draws') => (inr chunks, draws')
  | None => (inr [], draws)
  end.

(** The number of windows of a text of length [text_len] for a step
    [step]: [text_len / step], rounded up. *)
Definition window_count (text_len step : Z) : Z := (text_len + step - 1) / step.

(** The four keys [split_document] writes into the metadata of a chunk. *)
Definition lineage_keys : list string :=
  ["original_doc_id"; "chunk_sequence"; "chunk_start_index"; "chunk_end_index"].

(** The segments a splitter with step [step] emits for a list of
    documents, counted: the sum of the window counts of the contents. *)
Definition window_count_sum (step : Z) (documents : list Document.t) : Z :=
  foldr (λ doc acc, window_count (Py.len (Document.content doc)) step + acc) 0
    documents.

(** ** A collection that holds one record, for the search examples *)

Module ExampleSearch.
Import Py.

Definition metadata1 : gmap string value :=
  <["tags" := VStr "inflation,interest_rates"]>
    {["publication_date" := VStr "2023-01-01"]}.

Definition stored : ExampleBackend.collection :=
  [("doc1", [38], VStr "Federal reserve raises interest rates.", metadata1)].

Definition hit1 : VectorDatabaseManager.hit :=
  VectorDatabaseManager.mk_hit "doc1" 0 metadata1
    "Federal reserve raises interest rates.".

(** A document whose tags hold an [int]. *)
Definition doc_bad_tags : gmap string value :=
  <["tags" := VList [VStr "rates"; VInt 7]]>
    (<["cleaned_text" := VStr "Prices rise."]> {["url" := VStr "doc3"]}).

End ExampleSearch.

(** * Properties *)

(** ** Slices *)

Section PyFacts.
Import Py.

Lemma length_substring (n m : nat) (s : string) :
  String.length (String.substring n m s) = Nat.min m (String.length s - n).
Proof.
  revert n m; induction s as [|c s IH]; intros [|n] [|m]; simpl;
    try reflexivity; rewrite ?IH; try lia.
  destruct (String.length s - n)%nat; reflexivity.
Qed.

Lemma len_nonneg s : 0 <= len s.
Proof. unfold len; lia. Qed.

Lemma len_0 s : len s = 0 -> s = "".
Proof. destruct s; [reflexivity | unfold len; simpl; lia]. Qed.

Lemma len_slice (s : string) (a b : Z) :
  0 <= a -> a <= b -> b <= len s -> len (slice s a b) = b - a.
Proof.
  intros Ha Hab Hb. unfold slice, clamp_index.
  assert ((a <? 0) = false) as -> by lia.
  assert ((b <? 0) = false) as -> by lia.
  unfold len in *. rewrite length_substring. lia.
Qed.

Lemma substring_all (s : string) : String.substring 0 (String.length s) s = s.
Proof. induction s as [|c s IH]; simpl; [reflexivity | by rewrite IH]. Qed.

Lemma slice_all (s : string) : slice s 0 (len s) = s.
Proof.
  pose proof (len_nonneg s) as Hn. unfold slice, clamp_index.
  assert ((0 <? 0) = false) as -> by lia.
  assert ((len s <? 0) = false) as -> by lia.
  replace (Z.min 0 (len s)) with 0 by lia.
  replace (Z.min (len s) (len s) - 0) with (len s) by lia.
  unfold len. rewrite Nat2Z.id. apply substring_all.
Qed.

End PyFacts.

(** ** Windows *)

Section Windows.
Context (text_len size step : Z).

Lemma windows_functional start ws1 ws2 :
  windows text_len size step start ws1 ->
  windows text_len size step start ws2 -> ws1 = ws2.
Proof.
  intros H1; revert ws2.
  induction H1 as [start Hs | start ws Hs _ IH]; intros ws2 H2;
    inversion H2; subst; try lia; [reflexivity|].
  f_equal. by apply IH.
Qed.

Lemma windows_elem start ws w :
  0 < step -> windows text_len size step start ws -> w ∈ ws ->
  start <= w.1 ∧ w.1 < text_len ∧ w.2 = Z.min (w.1 + size) text_len.
Proof.
  intros Hstep H; revert w.
  induction H as [start Hs | start ws Hs _ IH]; intros w Hw.
  - by apply elem_of_nil in Hw.
  - apply elem_of_cons in Hw as [-> | Hw]; simpl; [lia|].
    specialize (IH w Hw). lia.
Qed.

(** The [k]-th window starts [k] steps after the first. *)
Lemma windows_lookup start ws (k : nat) w :
  windows text_len size step start ws -> ws !! k = Some w ->
  w.1 = start + Z.of_nat k * step ∧ w.1 < text_len
  ∧ w.2 = Z.min (w.1 + size) text_len.
Proof.
  intros H; revert k.
  induction H as [start Hs | start ws Hs _ IH]; intros k Hk.
  - by rewrite lookup_nil in Hk.
  - destruct k as [|k]; simpl in Hk.
    + inversion Hk; subst; simpl. lia.
    + destruct (IH k Hk) as (-> & ? & ?). split; [lia | done].
Qed.

(** The split goes on exactly as long as the next start is below the end
    of the text. *)
Lemma windows_lookup_next start ws (k : nat) w :
  windows text_len size step start ws -> ws !! k = Some w ->
  is_Some (ws !! S k) ↔ w.1 + step < text_len.
Proof.
  intros H; revert k.
  induction H as [start Hs | start ws Hs Hws IH]; intros k Hk.
  - by rewrite lookup_nil in Hk.
  - destruct k as [|k]; simpl in Hk.
    + inversion Hk; subst; simpl.
      inversion Hws; subst; simpl.
      * split; [intros [? [=]] | lia].
      * split; [lia | eauto].
    + simpl. by apply IH.
Qed.



Lemma windows_single start :
  start < text_len -> text_len <= start + step ->
  windows text_len size step start [(start, Z.min (start + size) text_len)].
Proof. intros. apply windows_next; [done | apply windows_done; lia]. Qed.

End Windows.

(** ** [DocumentChunker]: the loop emits the windows of its step *)

Section ChunkerFacts.
Import Py.

Lemma chunker_step_pos self :
  0 < DocumentChunker.chunk_size self -> 0 < chunker_step self.
Proof. unfold chunker_step. intros. case_match; lia. Qed.

Lemma chunker_step_le self :
  0 < DocumentChunker.chunk_size self ->
  0 <= DocumentChunker.chunk_overlap self ->
  chunker_step self <= DocumentChunker.chunk_size self.
Proof. unfold chunker_step. intros. case_match; lia. Qed.

Lemma chunker_step_valid self :
  DocumentChunker.chunk_overlap self < DocumentChunker.chunk_size self ->
  chunker_step self
  = DocumentChunker.chunk_size self - DocumentChunker.chunk_overlap self.
Proof. unfold chunker_step. intros. case_match; lia. Qed.

Lemma _simple_chunking_loop_windows self text fuel start chunks :
  0 < DocumentChunker.chunk_size self ->
  (Z.to_nat (len text - start) <= fuel)%nat ->
  ∃ ws,
    windows (len text) (DocumentChunker.chunk_size self) (chunker_step self) start ws
    ∧ DocumentChunker._simple_chunking_loop fuel self text start chunks
      = Some (chunks ++ map (window_text text) ws).
Proof.
  intros Hsize. pose proof (chunker_step_pos self Hsize) as Hstep.
  revert start chunks.
  induction fuel as [|fuel IH]; intros start chunks Hfuel; simpl.
  - destruct (start <? len text) eqn:Hlt; [lia|].
    exists []. split; [apply windows_done; lia | by rewrite app_nil_r].
  - destruct (start <? len text) eqn:Hlt.
    2:{ exists []. split; [apply windows_done; lia | by rewrite app_nil_r]. }
    set (e := Z.min (start + DocumentChunker.chunk_size self) (len text)).
    set (next :=
      if start + DocumentChunker.chunk_size self - DocumentChunker.chunk_overlap self
         <=? start
      then start + DocumentChunker.chunk_size self
      else start + DocumentChunker.chunk_size self - DocumentChunker.chunk_overlap self).
    assert (next = start + chunker_step self) as Hnext.
    { unfold next, chunker_step. repeat case_match; lia. }
    match goal with |- context [if ?b then Some _ else _] => destruct b eqn:Hbreak end.
    + exists [(start, e)]. split; [|reflexivity].
      apply windows_single; [lia|].
      apply andb_prop in Hbreak as [Hbreak _].
      apply andb_prop in Hbreak as [Hbreak _]. lia.
    + destruct (IH next (chunks ++ [slice text start e])) as (ws & Hws & Heq);
        [lia|].
      exists ((start, e) :: ws). split.
      * apply windows_next; [lia | by rewrite <- Hnext].
      * rewrite Heq. by rewrite <- app_assoc.
Qed.

Lemma _simple_chunking_windows self text fuel :
  0 < DocumentChunker.chunk_size self ->
  (String.length text <= fuel)%nat ->
  ∃ ws,
    windows (len text) (DocumentChunker.chunk_size self) (chunker_step self) 0 ws
    ∧ DocumentChunker._simple_chunking fuel self text
      = Some (map (window_text text) ws).
Proof.
  intros Hsize Hfuel. unfold DocumentChunker._simple_chunking.
  destruct (_simple_chunking_loop_windows self text fuel 0 [] Hsize)
    as (ws & Hws & Heq); [unfold len; lia | eauto].
Qed.

(** The windows of a chunker on a text, fixed by the text and the
    configuration alone. *)
Lemma _simple_chunking_fuel_irrelevant self text fuel1 fuel2 :
  0 < DocumentChunker.chunk_size self ->
  (String.length text <= fuel1)%nat -> (String.length text <= fuel2)%nat ->
  DocumentChunker._simple_chunking fuel1 self text
  = DocumentChunker._simple_chunking fuel2 self text.
Proof.
  intros Hsize H1 H2.
  destruct (_simple_chunking_windows self text fuel1 Hsize H1) as (ws1 & Hw1 & ->).
  destruct (_simple_chunking_windows self text fuel2 Hsize H2) as (ws2 & Hw2 & ->).
  by rewrite (windows_functional _ _ _ _ _ _ Hw1 Hw2).
Qed.

Lemma window_text_len text size step ws w :
  0 < size -> 0 < step ->
  windows (len text) size step 0 ws -> w ∈ ws ->
  0 < len (window_text text w) <= size.
Proof.
  intros Hsize Hstep Hws Hw.
  destruct (windows_elem _ _ _ _ _ _ Hstep Hws Hw) as (H0 & Hlt & He).
  unfold window_text. rewrite len_slice; lia.
Qed.

End ChunkerFacts.

(** ** [CharacterSplitter]: the loop emits the windows of its step *)

Section SplitterFacts.
Import Py.

Lemma __init___valid config self :
  CharacterSplitter.__init__ config = inr self -> valid_splitter self.
Proof.
  unfold CharacterSplitter.__init__, valid_splitter. intros H.
  repeat case_match; try discriminate. inversion H; subst; simpl. lia.
Qed.

Context (uuid4 : nat -> string).

Lemma split_loop_windows self document fuel start chunk_seq chunks draws :
  valid_splitter self ->
  (Z.to_nat (len (Document.content document) - start) <= fuel)%nat ->
  ∃ ws,
    windows (len (Document.content document)) (CharacterSplitter.chunk_size self)
      (CharacterSplitter.chunk_size self - CharacterSplitter.chunk_overlap self)
      start ws
    ∧ CharacterSplitter.split_loop uuid4 fuel self document start chunk_seq chunks draws
      = Some (chunks ++ chunks_of uuid4 document chunk_seq draws ws,
              (draws + length ws)%nat).
Proof.
  intros (Hsize & Hov0 & Hov).
  revert start chunk_seq chunks draws.
  induction fuel as [|fuel IH]; intros start chunk_seq chunks draws Hfuel; simpl.
  - destruct (start <? len (Document.content document)) eqn:Hlt; [lia|].
    exists []. split; [apply windows_done; lia|].
    simpl. by rewrite app_nil_r, Nat.add_0_r.
  - destruct (start <? len (Document.content document)) eqn:Hlt.
    2:{ exists []. split; [apply windows_done; lia|].
        simpl. by rewrite app_nil_r, Nat.add_0_r. }
    set (size := CharacterSplitter.chunk_size self) in *.
    set (overlap := CharacterSplitter.chunk_overlap self) in *.
    set (n := len (Document.content document)) in *.
    set (e := Z.min (start + size) n).
    match goal with |- context [if ?b then Some _ else _] => destruct b eqn:Hbreak end.
    + exists [(start, e)]. split.
      * apply windows_single; [lia|].
        apply andb_prop in Hbreak as [Hbreak _].
        apply andb_prop in Hbreak as [Hbreak _]. lia.
      * simpl. do 2 f_equal. lia.
    + set (next := if (start + (size - overlap) >=? e) && (e <? n)
                   then e else start + (size - overlap)).
      assert (next = start + (size - overlap)) as Hnext.
      { unfold next.
        destruct ((start + (size - overlap) >=? e) && (e <? n)) eqn:Hc; [|done].
        apply andb_prop in Hc as [? ?]. lia. }
      destruct (IH next (chunk_seq + 1)
                  (chunks ++ [CharacterSplitter.make_chunk uuid4 document chunk_seq start e draws])
                  (S draws)) as (ws & Hws & Heq); [lia|].
      exists ((start, e) :: ws). split.
      * apply windows_next; [lia | by rewrite <- Hnext].
      * rewrite Heq. simpl. rewrite <- app_assoc. simpl. do 2 f_equal. lia.
Qed.

Lemma split_document_windows self document fuel draws :
  valid_splitter self ->
  (String.length (Document.content document) <= fuel)%nat ->
  ∃ ws,
    windows (len (Document.content document)) (CharacterSplitter.chunk_size self)
      (CharacterSplitter.chunk_size self - CharacterSplitter.chunk_overlap self)
      0 ws
    ∧ CharacterSplitter.split_document uuid4 fuel self document draws
      = Some (chunks_of uuid4 document 0 draws ws, (draws + length ws)%nat).
Proof.
  intros Hvalid Hfuel. unfold CharacterSplitter.split_document.
  destruct (String.eqb_spec (Document.content document) "") as [Hempty | Hne].
  - exists []. split; [apply windows_done; rewrite Hempty; done|].
    simpl. by rewrite Nat.add_0_r.
  - destruct (split_loop_windows self document fuel 0 0 [] draws Hvalid)
      as (ws & Hws & Heq); [unfold len; lia | eauto].
Qed.

Lemma chunks_of_length document chunk_seq draws ws :
  length (chunks_of uuid4 document chunk_seq draws ws) = length ws.
Proof.
  revert chunk_seq draws; induction ws as [|w ws IH]; intros; simpl;
    [done | by rewrite IH].
Qed.

Lemma chunks_of_lookup document chunk_seq draws ws (k : nat) :
  chunks_of uuid4 document chunk_seq draws ws !! k
  = (λ w : Z * Z,
       CharacterSplitter.make_chunk uuid4 document (chunk_seq + Z.of_nat k)
         w.1 w.2 (draws + k)) <$> ws !! k.
Proof.
  revert chunk_seq draws k; induction ws as [|w ws IH]; intros chunk_seq draws k.
  - by rewrite !lookup_nil.
  - destruct k as [|k]; simpl.
    + by rewrite Z.add_0_r, Nat.add_0_r.
    + rewrite IH. destruct (ws !! k); simpl; [|done].
      do 2 f_equal; lia.
Qed.

Lemma make_chunk_offsets document chunk_seq s e draws :
  CharacterSplitter.offsets
    (CharacterSplitter.make_chunk uuid4 document chunk_seq s e draws)
  = Some (s, e).
Proof.
  unfold CharacterSplitter.offsets, CharacterSplitter.start_offset,
    CharacterSplitter.end_offset, CharacterSplitter.make_chunk. simpl.
  rewrite (lookup_insert_ne _ "chunk_end_index" "chunk_start_index") by done.
  by rewrite !lookup_insert_eq.
Qed.

Lemma chunks_of_offsets document chunk_seq draws ws :
  CharacterSplitter.offsets <$> chunks_of uuid4 document chunk_seq draws ws
  = Some <$> ws.
Proof.
  revert chunk_seq draws; induction ws as [|[s e] ws IH]; intros; simpl; [done|].
  by rewrite make_chunk_offsets, IH.
Qed.

End SplitterFacts.

(** ** From the windows relation to the properties of the window list *)

Section WindowProperties.
Context (text_len size step : Z) (ws : list (Z * Z)).
Hypothesis Hws : windows text_len size step 0 ws.

Lemma windows_laid_out : laid_out ws text_len size step.
Proof.
  intros i w Hi.
  destruct (windows_lookup _ _ _ _ _ _ _ Hws Hi) as (H1 & _ & H2). split; [lia|done].
Qed.

Lemma windows_overlap_exact_after_full :
  overlap_exact_after_full ws text_len size (size - step).
Proof.
  intros i w w' Hi Hi' Hfull.
  destruct (windows_lookup _ _ _ _ _ _ _ Hws Hi) as (H1 & _ & H2).
  destruct (windows_lookup _ _ _ _ _ _ _ Hws Hi') as (H1' & _ & _). lia.
Qed.

Lemma windows_stops_at_next_start : stops_at_next_start ws text_len step.
Proof. intros i w Hi. by apply (windows_lookup_next _ _ _ _ _ _ _ Hws). Qed.


End WindowProperties.

(** * The claims *)

Section ChunkerClaims.
Import Py.

Lemma _simple_chunking_returns self text :
  0 < DocumentChunker.chunk_size self ->
  ∃ ws,
    windows (len text) (DocumentChunker.chunk_size self) (chunker_step self) 0 ws
    ∧ ∀ fuel, (String.length text <= fuel)%nat →
        DocumentChunker._simple_chunking fuel self text
        = Some (map (window_text text) ws).
Proof.
  intros Hsize.
  destruct (_simple_chunking_windows self text (String.length text) Hsize)
    as (ws & Hws & Heq); [done|].
  exists ws. split; [done|]. intros fuel Hfuel.
  by rewrite (_simple_chunking_fuel_irrelevant self text fuel (String.length text)).
Qed.

Lemma split_text_returns self text :
  0 < DocumentChunker.chunk_size self ->
  ∃ chunks, ∀ fuel, (String.length text <= fuel)%nat →
    DocumentChunker.split_text fuel self text = Some chunks.
Proof.
  intros Hsize. destruct (_simple_chunking_returns self text Hsize) as (ws & _ & Hret).
  unfold DocumentChunker.split_text.
  repeat case_match; eauto.
Qed.

End ChunkerClaims.

(** A chunker with a non-positive [chunk_size] and a zero overlap never
    moves its window: on a text that is not empty the loop does not come
    back, whatever the fuel. *)
Lemma _simple_chunking_loop_stuck self text fuel start chunks :
  DocumentChunker.chunk_size self <= 0 ->
  DocumentChunker.chunk_overlap self = 0 ->
  start < Py.len text ->
  DocumentChunker._simple_chunking_loop fuel self text start chunks = None.
Proof.
  intros Hsize Hov. revert start chunks.
  induction fuel as [|fuel IH]; intros start chunks Hlt; simpl.
  - by assert ((start <? Py.len text) = true) as -> by lia.
  - assert ((start <? Py.len text) = true) as -> by lia.
    rewrite Hov.
    assert ((start + DocumentChunker.chunk_size self - 0 <=? start) = true) as ->
      by lia.
    assert ((start + DocumentChunker.chunk_size self >=? Py.len text) = false) as ->
      by lia.
    simpl. apply IH. lia.
Qed.

Lemma split_text_nonpositive_size_stuck fuel :
  DocumentChunker.split_text fuel (DocumentChunker.mk 0 0 "simple" None) "a" = None.
Proof.
  unfold DocumentChunker.split_text, DocumentChunker._simple_chunking. simpl.
  by apply _simple_chunking_loop_stuck.
Qed.

(** The scenarios of the specification. *)
Example scenario_25_10_3 :
  DocumentChunker.split_text 25 (DocumentChunker.mk 10 3 "simple" None)
    "abcdefghijklmnopqrstuvwxy"
  = Some ["abcdefghij"; "hijklmnopq"; "opqrstuvwx"; "vwxy"].
Proof. vm_compute. reflexivity. Qed.

Example scenario_10_10 :
  DocumentChunker.split_text 10 (DocumentChunker.mk 10 3 "simple" None) "abcdefghij"
  = Some ["abcdefghij"].
Proof. vm_compute. reflexivity. Qed.

Example scenario_20_5_0 :
  DocumentChunker.split_text 20 (DocumentChunker.mk 5 0 "simple" None)
    "abcdefghijklmnopqrst"
  = Some ["abcde"; "fghij"; "klmno"; "pqrst"].
Proof. vm_compute. reflexivity. Qed.

(** C8. Termination: for every input string and every configuration with a
    positive [chunk_size], the overlap clamped below [chunk_size] or not,
    the window advances by a positive step at every iteration (by
    [chunk_size] when [chunk_size - chunk_overlap] would not move it
    forward), so [_simple_chunking], and with it [split_text], returns once
    the fuel is at least the length of the text. *)
Theorem simple_chunking_terminates (self : DocumentChunker.t) (text : string) :
  0 < DocumentChunker.chunk_size self ->
  0 < chunker_step self
  ∧ (∃ chunks, ∀ fuel, (String.length text <= fuel)%nat →
       DocumentChunker._simple_chunking fuel self text = Some chunks)
  ∧ (∃ chunks, ∀ fuel, (String.length text <= fuel)%nat →
       DocumentChunker.split_text fuel self text = Some chunks).
Proof.
  intros Hsize. split; [by apply chunker_step_pos|]. split.
  - destruct (_simple_chunking_returns self text Hsize) as (ws & _ & Hret). eauto.
  - by apply split_text_returns.
Qed.

Lemma simple_chunking_terminates_witness :
  0 < chunker_step (DocumentChunker.mk 10 3 "simple" None)
  ∧ (∃ chunks, ∀ fuel, (String.length "abcdefghijklmnopqrstuvwxy" <= fuel)%nat →
       DocumentChunker._simple_chunking fuel (DocumentChunker.mk 10 3 "simple" None)
         "abcdefghijklmnopqrstuvwxy" = Some chunks)
  ∧ (∃ chunks, ∀ fuel, (String.length "abcdefghijklmnopqrstuvwxy" <= fuel)%nat →
       DocumentChunker.split_text fuel (DocumentChunker.mk 10 3 "simple" None)
         "abcdefghijklmnopqrstuvwxy" = Some chunks).
Proof.
  apply (simple_chunking_terminates (DocumentChunker.mk 10 3 "simple" None)
           "abcdefghijklmnopqrstuvwxy").
  simpl. lia.
Defined.

(** C9. Chunk-size bound: for every non-empty input string and every
    chunker with [chunk_size >= 1] and an overlap below [chunk_size],
    [split_text] returns, and every chunk it returns is a non-empty string
    of length at most [chunk_size]. *)
Theorem split_text_chunks_bounded (self : DocumentChunker.t) (text : string) :
  text ≠ "" ->
  1 <= DocumentChunker.chunk_size self ->
  DocumentChunker.chunk_overlap self < DocumentChunker.chunk_size self ->
  ∃ chunks,
    (∀ fuel, (String.length text <= fuel)%nat →
       DocumentChunker.split_text fuel self text = Some chunks)
    ∧ Forall (λ chunk, chunk ≠ ""
                ∧ 0 < Py.len chunk <= DocumentChunker.chunk_size self) chunks.
Proof.
  intros Hne Hsize Hov.
  assert (0 < DocumentChunker.chunk_size self) as Hpos by lia.
  assert (0 < Py.len text) as Hlen.
  { pose proof (len_nonneg text). destruct (decide (Py.len text = 0)) as [H0|]; [|lia].
    by apply len_0 in H0. }
  destruct (_simple_chunking_returns self text Hpos) as (ws & Hws & Hret).
  assert (Forall (λ chunk, chunk ≠ ""
            ∧ 0 < Py.len chunk <= DocumentChunker.chunk_size self)
            (map (window_text text) ws)) as Hall.
  { apply Forall_forall. intros chunk Hin.
    apply list_elem_of_fmap in Hin as (w & -> & Hw).
    pose proof (window_text_len text _ _ ws w Hpos (chunker_step_pos self Hpos) Hws Hw)
      as Hb.
    split; [|done]. intros Hempty. rewrite Hempty in Hb. unfold Py.len in Hb.
    simpl in Hb. lia. }
  unfold DocumentChunker.split_text.
  destruct (Py.len text <=? DocumentChunker.chunk_size self) eqn:Hshort.
  { exists [text]. split; [done|]. apply Forall_singleton. split; [done | lia]. }
  destruct (_ && _).
  { eexists. split; [exact Hret | done]. }
  destruct (String.eqb _ _).
  { eexists. split; [exact Hret | done]. }
  exists []. split; [done | constructor].
Qed.

Lemma split_text_chunks_bounded_witness :
  ∃ chunks,
    (∀ fuel, (String.length "abcdefghijklmnopqrstuvwxy" <= fuel)%nat →
       DocumentChunker.split_text fuel (DocumentChunker.mk 10 3 "simple" None)
         "abcdefghijklmnopqrstuvwxy" = Some chunks)
    ∧ Forall (λ chunk, chunk ≠ "" ∧ 0 < Py.len chunk <= 10) chunks.
Proof.
  apply (split_text_chunks_bounded (DocumentChunker.mk 10 3 "simple" None)
           "abcdefghijklmnopqrstuvwxy"); simpl; [discriminate | lia | lia].
Defined.

Section SplitterClaims.
Import Py.
Context (uuid4 : nat -> string).

Lemma split_document_returns self document draws :
  valid_splitter self ->
  ∃ ws,
    windows (len (Document.content document)) (CharacterSplitter.chunk_size self)
      (CharacterSplitter.chunk_size self - CharacterSplitter.chunk_overlap self) 0 ws
    ∧ ∀ fuel, (String.length (Document.content document) <= fuel)%nat →
        CharacterSplitter.split_document uuid4 fuel self document draws
        = Some (chunks_of uuid4 document 0 draws ws, (draws + length ws)%nat).
Proof.
  intros Hvalid.
  destruct (split_document_windows uuid4 self document
              (String.length (Document.content document)) draws Hvalid)
    as (ws & Hws & _); [done|].
  exists ws. split; [done|]. intros fuel Hfuel.
  destruct (split_document_windows uuid4 self document fuel draws Hvalid Hfuel)
    as (ws' & Hws' & ->).
  by rewrite (windows_functional _ _ _ _ _ _ Hws Hws').
Qed.

Lemma chunks_of_without_id document chunk_seq draws1 draws2 ws :
  Document.without_id <$> chunks_of uuid4 document chunk_seq draws1 ws
  = Document.without_id <$> chunks_of uuid4 document chunk_seq draws2 ws.
Proof.
  revert chunk_seq draws1 draws2; induction ws as [|w ws IH]; intros; simpl; [done|].
  f_equal. apply IH.
Qed.

Lemma make_chunk_lineage document chunk_seq s e draws :
  let c := CharacterSplitter.make_chunk uuid4 document chunk_seq s e draws in
  Document.id c = uuid4 draws
  ∧ Document.metadata c !! "original_doc_id" = Some (VStr (Document.id document))
  ∧ Document.metadata c !! "chunk_sequence" = Some (VInt chunk_seq).
Proof.
  simpl. split; [done|]. split.
  - do 3 (rewrite lookup_insert_ne by done). by rewrite lookup_insert_eq.
  - do 2 (rewrite lookup_insert_ne by done). by rewrite lookup_insert_eq.
Qed.

End SplitterClaims.

(** Splitting the same document a second time draws new identifiers. *)
Lemma split_document_again_new_ids :
  ∃ chunks1 draws1 chunks2 draws2,
    CharacterSplitter.split_document Example.uuid4 5 (Example.splitter 3 1)
      (Example.doc "abcde") 0 = Some (chunks1, draws1)
    ∧ CharacterSplitter.split_document Example.uuid4 5 (Example.splitter 3 1)
        (Example.doc "abcde") draws1 = Some (chunks2, draws2)
    ∧ Document.id <$> chunks1 = ["uuid-0"; "uuid-1"; "uuid-2"]
    ∧ Document.id <$> chunks2 = ["uuid-3"; "uuid-4"; "uuid-5"]
    ∧ chunks1 ≠ chunks2.
Proof.
  do 4 eexists. split; [vm_compute; reflexivity|].
  split; [vm_compute; reflexivity|].
  split; [vm_compute; reflexivity|].
  split; [vm_compute; reflexivity|].
  intros Heq. apply (f_equal (fmap Document.id)) in Heq.
  vm_compute in Heq. discriminate Heq.
Qed.

(** C1 (amended). For every document and fixed chunking parameters,
    invoking the split twice yields the same segments up to their ids: the
    two lists agree on content, offsets, lineage metadata, source and tags.
    The id of segment [k] is the identifier drawn at its construction, not
    a function of the parent id and the sequence number; that pair is what
    the segment's metadata records under [original_doc_id] and
    [chunk_sequence]. *)
Theorem split_document_twice (uuid4 : nat -> string) (self : CharacterSplitter.t)
    (document : Document.t) (draws1 draws2 fuel : nat) :
  valid_splitter self ->
  (String.length (Document.content document) <= fuel)%nat ->
  ∃ chunks1 chunks2 n,
    CharacterSplitter.split_document uuid4 fuel self document draws1
      = Some (chunks1, (draws1 + n)%nat)
    ∧ CharacterSplitter.split_document uuid4 fuel self document draws2
      = Some (chunks2, (draws2 + n)%nat)
    ∧ length chunks1 = n
    ∧ Document.without_id <$> chunks1 = Document.without_id <$> chunks2
    ∧ ∀ (k : nat) c, chunks1 !! k = Some c →
        Document.id c = uuid4 (draws1 + k)%nat
        ∧ Document.metadata c !! "original_doc_id"
          = Some (Py.VStr (Document.id document))
        ∧ Document.metadata c !! "chunk_sequence" = Some (Py.VInt (Z.of_nat k)).
Proof.
  intros Hvalid Hfuel.
  destruct (split_document_returns uuid4 self document draws1 Hvalid) as (ws & Hws & H1).
  destruct (split_document_returns uuid4 self document draws2 Hvalid) as (ws' & Hws' & H2).
  rewrite <- (windows_functional _ _ _ _ _ _ Hws Hws') in H2.
  exists (chunks_of uuid4 document 0 draws1 ws), (chunks_of uuid4 document 0 draws2 ws),
    (length ws).
  split; [by apply H1|]. split; [by apply H2|].
  split; [apply chunks_of_length|].
  split; [apply chunks_of_without_id|].
  intros k c Hk. rewrite chunks_of_lookup in Hk.
  destruct (ws !! k) as [w|]; [|done]. simpl in Hk. inversion Hk; subst.
  apply make_chunk_lineage.
Qed.

Lemma split_document_twice_witness :
  ∃ chunks1 chunks2 n,
    CharacterSplitter.split_document Example.uuid4 5 (Example.splitter 3 1)
      (Example.doc "abcde") 0 = Some (chunks1, (0 + n)%nat)
    ∧ CharacterSplitter.split_document Example.uuid4 5 (Example.splitter 3 1)
        (Example.doc "abcde") 3 = Some (chunks2, (3 + n)%nat)
    ∧ length chunks1 = n
    ∧ Document.without_id <$> chunks1 = Document.without_id <$> chunks2
    ∧ ∀ (k : nat) c, chunks1 !! k = Some c →
        Document.id c = Example.uuid4 (0 + k)%nat
        ∧ Document.metadata c !! "original_doc_id"
          = Some (Py.VStr (Document.id (Example.doc "abcde")))
        ∧ Document.metadata c !! "chunk_sequence" = Some (Py.VInt (Z.of_nat k)).
Proof.
  apply (split_document_twice Example.uuid4 (Example.splitter 3 1)
           (Example.doc "abcde") 0 3 5).
  - unfold valid_splitter; simpl; lia.
  - simpl; lia.
Defined.

(** Both splitters go on after a segment has reached the end of the
    content: with [chunk_size = 3] and [chunk_overlap = 1] on five
    characters the second segment ends at 5 and a third one follows. *)
Lemma split_goes_on_after_end :
  ∃ chunks draws,
    CharacterSplitter.split_document Example.uuid4 5 (Example.splitter 3 1)
      (Example.doc "abcde") 0 = Some (chunks, draws)
    ∧ CharacterSplitter.offsets <$> chunks = [Some (0, 3); Some (2, 5); Some (4, 5)]
    ∧ DocumentChunker.split_text 5 (DocumentChunker.mk 3 1 "simple" None) "abcde"
      = Some ["abc"; "cde"; "e"]
    ∧ ¬ stops_at_first_end [(0, 3); (2, 5); (4, 5)] 5.
Proof.
  do 2 eexists. split; [vm_compute; reflexivity|].
  split; [vm_compute; reflexivity|].
  split; [vm_compute; reflexivity|].
  intros H. specialize (H 1%nat (2, 5) eq_refl eq_refl). discriminate H.
Qed.

(** C2 (amended). For every document whose content is longer than
    [chunk_size] and every valid configuration, both splitters emit the
    same windows: segment [i] starts at [i * (chunk_size - chunk_overlap)]
    and ends at [min (start + chunk_size) (len content)]; every pair of
    consecutive segments whose first member is a full [chunk_size] window
    satisfies [end_offset[i] - start_offset[i+1] = chunk_overlap]; and a
    segment is followed by another exactly when the next start
    [start_offset[i] + chunk_size - chunk_overlap] is still below
    [len content]: the split stops when the next start reaches the end, not
    when a segment's end does. *)
Theorem split_overlap_and_stop (uuid4 : nat -> string) (self : CharacterSplitter.t)
    (chunker : DocumentChunker.t) (document : Document.t) (draws : nat) :
  let size := CharacterSplitter.chunk_size self in
  let overlap := CharacterSplitter.chunk_overlap self in
  let content := Document.content document in
  valid_splitter self ->
  (DocumentChunker.__init__ size overlap "simple").2 = inr chunker ->
  size < Py.len content ->
  ∃ ws,
    (∀ fuel, (String.length content <= fuel)%nat →
       ∃ chunks draws',
         CharacterSplitter.split_document uuid4 fuel self document draws
           = Some (chunks, draws')
         ∧ CharacterSplitter.offsets <$> chunks = Some <$> ws)
    ∧ (∀ fuel, (String.length content <= fuel)%nat →
         DocumentChunker.split_text fuel chunker content
         = Some (window_text content <$> ws))
    ∧ laid_out ws (Py.len content) size (size - overlap)
    ∧ overlap_exact_after_full ws (Py.len content) size overlap
    ∧ stops_at_next_start ws (Py.len content) (size - overlap).
Proof.
  intros size overlap content Hvalid Hinit Hlong.
  destruct Hvalid as (Hsize & Hov0 & Hov). fold size overlap in Hsize, Hov0, Hov.
  assert (chunker = DocumentChunker.mk size overlap "simple" None) as ->.
  { unfold DocumentChunker.__init__ in Hinit.
    assert ((overlap >=? size) = false) as Hc by lia. rewrite Hc in Hinit.
    simpl in Hinit. by inversion Hinit. }
  destruct (split_document_returns uuid4 self document draws) as (ws & Hws & Hsplit);
    [by repeat split|].
  fold size overlap content in Hws, Hsplit.
  exists ws. split; [|split; [|split; [|split]]].
  - intros fuel Hfuel. do 2 eexists. split; [by apply Hsplit|].
    apply chunks_of_offsets.
  - intros fuel Hfuel. unfold DocumentChunker.split_text. simpl.
    assert ((Py.len content <=? size) = false) as -> by lia.
    destruct (_simple_chunking_returns (DocumentChunker.mk size overlap "simple" None)
                content) as (ws' & Hws' & Hret); [done|].
    rewrite chunker_step_valid in Hws' by done. simpl in Hws'.
    rewrite (windows_functional _ _ _ _ _ _ Hws Hws'). by apply Hret.
  - by apply windows_laid_out.
  - pose proof (windows_overlap_exact_after_full _ size (size - overlap) ws Hws) as H.
    by replace (size - (size - overlap)) with overlap in H by lia.
  - by apply (windows_stops_at_next_start _ size _ _ Hws).
Qed.

Lemma split_overlap_and_stop_witness :
  ∃ ws,
    (∀ fuel, (String.length "abcdefghijklmnopqrstuvwxy" <= fuel)%nat →
       ∃ chunks draws',
         CharacterSplitter.split_document Example.uuid4 fuel (Example.splitter 10 3)
           (Example.doc "abcdefghijklmnopqrstuvwxy") 0 = Some (chunks, draws')
         ∧ CharacterSplitter.offsets <$> chunks = Some <$> ws)
    ∧ (∀ fuel, (String.length "abcdefghijklmnopqrstuvwxy" <= fuel)%nat →
         DocumentChunker.split_text fuel (DocumentChunker.mk 10 3 "simple" None)
           "abcdefghijklmnopqrstuvwxy"
         = Some (window_text "abcdefghijklmnopqrstuvwxy" <$> ws))
    ∧ laid_out ws 25 10 7
    ∧ overlap_exact_after_full ws 25 10 3
    ∧ stops_at_next_start ws 25 7.
Proof.
  apply (split_overlap_and_stop Example.uuid4 (Example.splitter 10 3)
           (DocumentChunker.mk 10 3 "simple" None)
           (Example.doc "abcdefghijklmnopqrstuvwxy") 0).
  - unfold valid_splitter; simpl; lia.
  - reflexivity.
  - vm_compute; reflexivity.
Defined.




(** [CharacterSplitter] refuses an overlap equal to the chunk size. *)
Lemma character_splitter_rejects_overlap :
  CharacterSplitter.__init__
    (Some (<["chunk_overlap" := Py.VInt 10]> {["chunk_size" := Py.VInt 10]}))
  = inl (CharacterSplitter.ValueError
           "'chunk_overlap' must be smaller than 'chunk_size'.").
Proof. vm_compute. reflexivity. Qed.

(** C5 (amended). For every configuration where [chunk_overlap] is greater
    than or equal to [chunk_size], constructing a [DocumentChunker] with a
    supported method succeeds, logs a warning and sets the overlap to 0: the
    chunker is the one the zero-overlap configuration builds, so splitting
    proceeds as a zero-overlap split.  Constructing a [CharacterSplitter]
    with such a configuration raises [ValueError]. *)
Theorem overlap_not_below_size (chunk_size chunk_overlap : Z) (method : string)
    (config : gmap string Py.value) :
  chunk_size <= chunk_overlap ->
  method = "simple" ∨ method = "recursive_char" ->
  config !! "chunk_size" = Some (Py.VInt chunk_size) ->
  config !! "chunk_overlap" = Some (Py.VInt chunk_overlap) ->
  (∃ log self,
     DocumentChunker.__init__ chunk_size chunk_overlap method = (log, inr self)
     ∧ (∃ r, r ∈ log ∧ DocumentChunker.level_of r = DocumentChunker.WARNING
             ∧ r = DocumentChunker.LogWarning_overlap_clamped chunk_overlap chunk_size)
     ∧ DocumentChunker.chunk_size self = chunk_size
     ∧ DocumentChunker.chunk_overlap self = 0
     ∧ (DocumentChunker.__init__ chunk_size 0 method).2 = inr self
     ∧ ∀ fuel text,
         DocumentChunker.split_text fuel self text
         = DocumentChunker.split_text fuel
             (DocumentChunker.mk chunk_size 0 method None) text)
  ∧ ∃ msg,
      CharacterSplitter.__init__ (Some config) = inl (CharacterSplitter.ValueError msg).
Proof.
  intros Hge Hmethod Hsize Hoverlap. split.
  - exists ([DocumentChunker.LogWarning_overlap_clamped chunk_overlap chunk_size]
            ++ [if String.eqb method "recursive_char"
                then DocumentChunker.LogInfo_recursive_char chunk_size 0
                else DocumentChunker.LogInfo_simple chunk_size 0]),
      (DocumentChunker.mk chunk_size 0 method None).
    unfold DocumentChunker.__init__.
    assert ((chunk_overlap >=? chunk_size) = true) as -> by lia.
    split; [|split; [|split; [|split; [|split]]]]; try done.
    + destruct Hmethod as [-> | ->]; reflexivity.
    + exists (DocumentChunker.LogWarning_overlap_clamped chunk_overlap chunk_size).
      split; [|split; reflexivity].
      apply elem_of_app. left. by apply list_elem_of_singleton.
    + destruct (0 >=? chunk_size); destruct Hmethod as [-> | ->]; reflexivity.
  - unfold CharacterSplitter.__init__. simpl. rewrite Hsize, Hoverlap. simpl.
    destruct (chunk_size <=? 0); [eauto|].
    destruct (chunk_overlap <? 0); [eauto|].
    assert ((chunk_overlap >=? chunk_size) = true) as -> by lia. eauto.
Qed.

Lemma overlap_not_below_size_witness :
  (∃ log self,
     DocumentChunker.__init__ 10 10 "simple" = (log, inr self)
     ∧ (∃ r, r ∈ log ∧ DocumentChunker.level_of r = DocumentChunker.WARNING
             ∧ r = DocumentChunker.LogWarning_overlap_clamped 10 10)
     ∧ DocumentChunker.chunk_size self = 10
     ∧ DocumentChunker.chunk_overlap self = 0
     ∧ (DocumentChunker.__init__ 10 0 "simple").2 = inr self
     ∧ ∀ fuel text,
         DocumentChunker.split_text fuel self text
         = DocumentChunker.split_text fuel
             (DocumentChunker.mk 10 0 "simple" None) text)
  ∧ ∃ msg,
      CharacterSplitter.__init__
        (Some (<["chunk_overlap" := Py.VInt 10]> {["chunk_size" := Py.VInt 10]}))
      = inl (CharacterSplitter.ValueError msg).
Proof.
  apply (overlap_not_below_size 10 10 "simple"
           (<["chunk_overlap" := Py.VInt 10]> {["chunk_size" := Py.VInt 10]})).
  - lia.
  - left; reflexivity.
  - vm_compute; reflexivity.
  - vm_compute; reflexivity.
Defined.

(** [DocumentChunker.split_text] returns one empty chunk for an empty
    text, not an empty list. *)
Lemma split_text_empty_text :
  DocumentChunker.__init__ 1000 100 "simple"
  = ([DocumentChunker.LogInfo_simple 1000 100],
     inr (DocumentChunker.mk 1000 100 "simple" None))
  ∧ DocumentChunker.split_text 0 (DocumentChunker.mk 1000 100 "simple" None) ""
    = Some [""].
Proof. split; vm_compute; reflexivity. Qed.

(** C6 (amended). [CharacterSplitter] raises [ValueError] at construction for
    every non-positive [chunk_size]; the split of a splitter it did
    construct returns for every document, and returns no segment when the
    content is empty.  [DocumentChunker.split_text] returns for every text
    when [chunk_size >= 1], and for an empty text it returns the one-chunk
    list holding the empty string. *)
Theorem splitter_failure_contract (config config' : gmap string Py.value)
    (v : Py.value) (z : Z) (uuid4 : nat -> string) (self : CharacterSplitter.t)
    (document : Document.t) (draws : nat) (chunker : DocumentChunker.t)
    (text : string) :
  config !! "chunk_size" = Some v -> Py.as_int v = Some z -> z <= 0 ->
  CharacterSplitter.__init__ (Some config') = inr self ->
  1 <= DocumentChunker.chunk_size chunker ->
  (∃ msg, CharacterSplitter.__init__ (Some config)
          = inl (CharacterSplitter.ValueError msg))
  ∧ (∃ chunks draws',
       (∀ fuel, (String.length (Document.content document) <= fuel)%nat →
          CharacterSplitter.split_document uuid4 fuel self document draws
          = Some (chunks, draws'))
       ∧ (Document.content document = "" → chunks = []))
  ∧ (∃ chunks, ∀ fuel, (String.length text <= fuel)%nat →
       DocumentChunker.split_text fuel chunker text = Some chunks)
  ∧ ∀ fuel, DocumentChunker.split_text fuel chunker "" = Some [""].
Proof.
  intros Hv Hint Hz Hinit Hsize. split; [|split; [|split]].
  - unfold CharacterSplitter.__init__. simpl. rewrite Hv. simpl. rewrite Hint.
    assert ((z <=? 0) = true) as -> by lia. eauto.
  - apply __init___valid in Hinit.
    destruct (split_document_returns uuid4 self document draws Hinit)
      as (ws & Hws & Hret).
    do 2 eexists. split; [exact Hret|].
    intros Hempty. inversion Hws as [|? ws0 Hlt Hrest]; subst; [done|].
    rewrite Hempty in Hlt. vm_compute in Hlt. discriminate.
  - apply split_text_returns. lia.
  - intros fuel. unfold DocumentChunker.split_text.
    assert ((Py.len "" <=? DocumentChunker.chunk_size chunker) = true) as ->; [|done].
    change (Py.len "") with 0. lia.
Qed.

Lemma splitter_failure_contract_witness :
  (∃ msg, CharacterSplitter.__init__ (Some {["chunk_size" := Py.VInt 0]})
          = inl (CharacterSplitter.ValueError msg))
  ∧ (∃ chunks draws',
       (∀ fuel, (String.length (Document.content (Example.doc "")) <= fuel)%nat →
          CharacterSplitter.split_document Example.uuid4 fuel (Example.splitter 3 1)
            (Example.doc "") 0 = Some (chunks, draws'))
       ∧ (Document.content (Example.doc "") = "" → chunks = []))
  ∧ (∃ chunks, ∀ fuel, (String.length "abcde" <= fuel)%nat →
       DocumentChunker.split_text fuel (DocumentChunker.mk 3 1 "simple" None) "abcde"
       = Some chunks)
  ∧ ∀ fuel, DocumentChunker.split_text fuel (DocumentChunker.mk 3 1 "simple" None) ""
            = Some [""].
Proof.
  apply (splitter_failure_contract {["chunk_size" := Py.VInt 0]}
           (<["chunk_overlap" := Py.VInt 1]> {["chunk_size" := Py.VInt 3]})
           (Py.VInt 0) 0 Example.uuid4 (Example.splitter 3 1) (Example.doc "") 0
           (DocumentChunker.mk 3 1 "simple" None) "abcde").
  - vm_compute; reflexivity.
  - reflexivity.
  - lia.
  - vm_compute; reflexivity.
  - simpl; lia.
Defined.

(** ** [VectorDatabaseManager] *)

Section ManagerFacts.
Import Py.

#[local] Instance str_le_total : Total VectorDatabaseManager.str_le.
Proof. intros a b. apply String.leb_total. Qed.

Lemma mapM_as_str tags strs :
  mapM VectorDatabaseManager.as_str tags = Some strs -> tags = VStr <$> strs.
Proof.
  intros H. apply mapM_Some_1 in H.
  induction H as [|v s tags strs Hv _ IH]; [done|].
  destruct v; simpl in Hv; try discriminate. injection Hv as ->.
  simpl. by rewrite IH.
Qed.

Lemma tags_collection_not_scalar doc tags v :
  tags_collection doc = Some tags -> doc !! "tags" = Some v -> is_scalar v = false.
Proof.
  unfold tags_collection. intros Ht Hv. rewrite Hv in Ht.
  by destruct v.
Qed.

Section Flatten.
Context (text_key id_key : string) (doc : gmap string value).

Let base : gmap string value :=
  filter (λ kv : string * value,
            kv.1 ≠ text_key ∧ kv.1 ≠ id_key ∧ is_scalar kv.2 = true) doc.

Lemma base_lookup k v :
  base !! k = Some v ↔
  doc !! k = Some v ∧ k ≠ text_key ∧ k ≠ id_key ∧ is_scalar v = true.
Proof. unfold base. by rewrite map_lookup_filter_Some. Qed.

Lemma base_dropped k v :
  doc !! k = Some v -> is_scalar v = false -> base !! k = None.
Proof.
  intros Hk Hv. destruct (base !! k) as [v'|] eqn:Hb; [|done].
  apply base_lookup in Hb as (Hk' & _ & _ & Hs). congruence.
Qed.

Lemma flattened_base :
  tags_collection doc = None -> flattened text_key id_key doc base.
Proof.
  intros Hnone. repeat split.
  - intros k v Hk. by apply base_lookup in Hk as (_ & _ & _ & ?).
  - intros k v Hk. right. apply base_lookup in Hk. tauto.
  - intros k v Hk Ht Hi Hs. by apply base_lookup.
  - intros k v Hk Hs _. by apply (base_dropped k v).
  - intros tags Htags. congruence.
Qed.

Lemma flattened_tags tags strs :
  tags_collection doc = Some tags ->
  mapM VectorDatabaseManager.as_str tags = Some strs ->
  flattened text_key id_key doc
    (<["tags" := VStr (join "," (VectorDatabaseManager.sorted strs))]> base).
Proof.
  intros Htags Hstrs. repeat split.
  - apply map_Forall_insert_2; [done|].
    intros k v Hk. by apply base_lookup in Hk as (_ & _ & _ & ?).
  - intros k v Hk. destruct (decide (k = "tags")) as [-> | Hne].
    + left. split; [done | by rewrite Htags].
    + right. rewrite lookup_insert_ne in Hk by done.
      apply base_lookup in Hk. tauto.
  - intros k v Hk Ht Hi Hs. destruct (decide (k = "tags")) as [-> | Hne].
    + rewrite (tags_collection_not_scalar doc tags v Htags Hk) in Hs. discriminate.
    + rewrite lookup_insert_ne by done. by apply base_lookup.
  - intros k v Hk Hs Hnot. destruct (decide (k = "tags")) as [-> | Hne].
    + exfalso. apply Hnot. split; [done | by rewrite Htags].
    + rewrite lookup_insert_ne by done. by apply (base_dropped k v).
  - intros tags' Htags'. assert (tags' = tags) as -> by congruence.
    exists strs, (VectorDatabaseManager.sorted strs).
    split; [by apply mapM_as_str|].
    split; [apply merge_sort_Permutation|].
    split; [apply (Sorted_merge_sort VectorDatabaseManager.str_le)|].
    by rewrite lookup_insert_eq.
Qed.

Lemma prepare_metadata_flattened md :
  VectorDatabaseManager.prepare_metadata doc text_key id_key = inr md ->
  flattened text_key id_key doc md.
Proof.
  unfold VectorDatabaseManager.prepare_metadata. fold base.
  destruct (tags_collection doc) as [tags|] eqn:Htags.
  - assert (doc !! "tags" = Some (VList tags) ∨ doc !! "tags" = Some (VSet tags))
      as Hdoc.
    { unfold tags_collection in Htags. repeat case_match; inversion Htags; auto. }
    assert (match VectorDatabaseManager.join_sorted tags with
            | Some s => inr (<["tags" := VStr s]> base)
            | None => inl (VectorDatabaseManager.TypeError
                             "sequence item: expected str instance")
            end = inr md → flattened text_key id_key doc md) as Hcase.
    { unfold VectorDatabaseManager.join_sorted.
      destruct (mapM VectorDatabaseManager.as_str tags) as [strs|] eqn:Hstrs;
        simpl; [|discriminate].
      intros [= <-]. by apply (flattened_tags tags strs). }
    destruct Hdoc as [-> | ->]; exact Hcase.
  - intros Hmd. assert (md = base) as ->; [|by apply flattened_base].
    unfold tags_collection in Htags.
    repeat case_match; try discriminate; by inversion Hmd.
Qed.

End Flatten.

Section Manager.
Context (vector collection : Type) (py_str : value -> string).
Context (encode : list value -> option (list vector)).
Context (upsert : collection -> list string -> list vector -> list value ->
                  list (gmap string value) -> collection * bool).

Lemma collect_flattened documents text_key id_key ids texts metadatas
    ids' texts' metadatas' :
  VectorDatabaseManager.collect py_str documents text_key id_key ids texts metadatas
  = inr (ids', texts', metadatas') ->
  ∃ new,
    metadatas' = metadatas ++ new
    ∧ Forall2 (flattened text_key id_key)
        (List.filter (has_id_and_text text_key id_key) documents) new.
Proof.
  revert ids texts metadatas.
  induction documents as [|doc documents IH]; intros ids texts metadatas; simpl.
  - intros [= <- <- <-]. exists []. by rewrite app_nil_r.
  - unfold has_id_and_text at 1.
    destruct (truthy (default VNone (doc !! id_key))),
      (truthy (default VNone (doc !! text_key))); simpl; try apply IH.
    destruct (VectorDatabaseManager.prepare_metadata doc text_key id_key)
      as [e | md] eqn:Hmd; [discriminate|].
    intros Hc. destruct (IH _ _ _ Hc) as (new & -> & Hnew).
    exists (md :: new). split; [by rewrite <- app_assoc|].
    constructor; [by apply prepare_metadata_flattened | done].
Qed.

End Manager.

End ManagerFacts.

(** C10. Metadata flattening: for every batch passed to [add_documents],
    every metadata map forwarded to the backend [upsert] holds only scalar
    values (string, integer, float or boolean).  The maps forwarded are
    those of the documents with an id and a text, in order; in each,
    non-scalar fields are dropped, except that a list- or set-valued [tags]
    field becomes the comma-joined string of its sorted elements. *)
Theorem add_documents_flattens_metadata (vector collection : Type)
    (py_str : Py.value -> string)
    (encode : list Py.value -> option (list vector))
    (upsert : collection -> list string -> list vector -> list Py.value ->
              list (gmap string Py.value) -> collection * bool)
    (coll : collection) (documents : list (gmap string Py.value))
    (text_key id_key : string)
    (ids : list string) (embeddings : list vector) (texts : list Py.value)
    (metadatas : list (gmap string Py.value)) :
  VectorDatabaseManager.CallUpsert vector ids embeddings texts metadatas
    ∈ (VectorDatabaseManager.add_documents vector collection py_str encode upsert
         coll documents text_key id_key).1.1 ->
  Forall (map_Forall (λ _ v, Py.is_scalar v = true)) metadatas
  ∧ Forall2 (flattened text_key id_key)
      (List.filter (has_id_and_text text_key id_key) documents) metadatas.
Proof.
  intros Hcall.
  assert (Forall2 (flattened text_key id_key)
            (List.filter (has_id_and_text text_key id_key) documents) metadatas)
    as Hflat.
  { unfold VectorDatabaseManager.add_documents in Hcall.
    destruct documents as [|doc documents]; [by apply elem_of_nil in Hcall|].
    destruct (VectorDatabaseManager.collect py_str (doc :: documents)
                text_key id_key [] [] []) as [e | [[ids' texts'] metadatas']] eqn:Hc;
      [by apply elem_of_nil in Hcall|].
    apply collect_flattened in Hc as (new & -> & Hnew). simpl in Hnew.
    destruct ids' as [|i ids']; [by apply elem_of_nil in Hcall|].
    destruct (encode texts') as [embeddings'|]; simpl in Hcall.
    - destruct (upsert coll (i :: ids') embeddings' texts' new) as [coll' []];
        simpl in Hcall;
        apply elem_of_cons in Hcall as [Hcall | Hcall]; try discriminate;
        apply list_elem_of_singleton in Hcall; by inversion Hcall; subst.
    - apply list_elem_of_singleton in Hcall. discriminate. }
  split; [|done].
  apply Forall_forall. intros md Hmd.
  apply list_elem_of_lookup in Hmd as [k Hk].
  destruct (Forall2_lookup_r _ _ _ _ _ Hflat Hk) as (doc & _ & Hdoc).
  apply Hdoc.
Qed.

Lemma add_documents_flattens_metadata_witness :
  Forall (map_Forall (λ _ v, Py.is_scalar v = true))
    [<["tags" := Py.VStr "inflation,interest_rates"]>
       ({["publication_date" := Py.VStr "2023-01-01"]} : gmap string Py.value)]
  ∧ Forall2 (flattened "cleaned_text" "url")
      (List.filter (has_id_and_text "cleaned_text" "url")
         [ExampleBackend.doc1; {["url" := Py.VStr "doc2"]}])
      [<["tags" := Py.VStr "inflation,interest_rates"]>
         {["publication_date" := Py.VStr "2023-01-01"]}].
Proof.
  apply (add_documents_flattens_metadata ExampleBackend.vector
           ExampleBackend.collection ExampleBackend.py_str ExampleBackend.encode
           ExampleBackend.upsert []
           [ExampleBackend.doc1; {["url" := Py.VStr "doc2"]}] "cleaned_text" "url"
           ["doc1"] [[38]] [Py.VStr "Federal reserve raises interest rates."]).
  apply list_elem_of_lookup. exists 1%nat. vm_compute. reflexivity.
Defined.

(** [search] hands a zero [n_results] to the backend; the backend raises
    and [search] reports a retrieval error. *)
Lemma search_forwards_zero :
  VectorDatabaseManager.search ExampleBackend.vector ExampleBackend.collection
    ExampleBackend.encode ExampleBackend.query [] "rates" 0 None
  = ([VectorDatabaseManager.CallEncode ExampleBackend.vector [Py.VStr "rates"];
      VectorDatabaseManager.CallQuery ExampleBackend.vector [[5]] 0 None],
     inl (VectorDatabaseManager.RetrievalError "Vector search failed")).
Proof. vm_compute. reflexivity. Qed.

(** C7 (amended). [search] makes no check of [n_results]: once the query
    text is embedded, every value of [n_results], positive or not, is
    forwarded unchanged to the backend query; when the backend raises,
    [search] raises [RetrievalError]. *)
Theorem search_forwards_n_results (vector collection : Type)
    (encode : list Py.value -> option (list vector))
    (query : collection -> list vector -> Z -> option (gmap string Py.value) ->
             option VectorDatabaseManager.query_result)
    (coll : collection) (query_text : string) (n_results : Z)
    (filter_metadata : option (gmap string Py.value))
    (query_embedding : list vector) :
  encode [Py.VStr query_text] = Some query_embedding ->
  (VectorDatabaseManager.search vector collection encode query
     coll query_text n_results filter_metadata).1
  = [VectorDatabaseManager.CallEncode vector [Py.VStr query_text];
     VectorDatabaseManager.CallQuery vector query_embedding n_results filter_metadata]
  ∧ (query coll query_embedding n_results filter_metadata = None →
     (VectorDatabaseManager.search vector collection encode query
        coll query_text n_results filter_metadata).2
     = inl (VectorDatabaseManager.RetrievalError "Vector search failed")).
Proof.
  intros Henc. unfold VectorDatabaseManager.search. rewrite Henc. split.
  - by repeat case_match.
  - by intros ->.
Qed.

Lemma search_forwards_n_results_witness :
  (VectorDatabaseManager.search ExampleBackend.vector ExampleBackend.collection
     ExampleBackend.encode ExampleBackend.query [] "rates" (-1) None).1
  = [VectorDatabaseManager.CallEncode ExampleBackend.vector [Py.VStr "rates"];
     VectorDatabaseManager.CallQuery ExampleBackend.vector [[5]] (-1) None]
  ∧ (ExampleBackend.query [] [[5]] (-1) None = None →
     (VectorDatabaseManager.search ExampleBackend.vector ExampleBackend.collection
        ExampleBackend.encode ExampleBackend.query [] "rates" (-1) None).2
     = inl (VectorDatabaseManager.RetrievalError "Vector search failed")).
Proof.
  apply (search_forwards_n_results ExampleBackend.vector ExampleBackend.collection
           ExampleBackend.encode ExampleBackend.query [] "rates" (-1) None [[5]]).
  vm_compute. reflexivity.
Defined.

(** ** [FileSystemDocumentStore] *)

Section StoreFacts.



End StoreFacts.




(** * Further properties of the splitters *)

Section SplitterExtras.
Import Py.

Lemma substring_app (s : string) (n m1 m2 : nat) :
  String.substring n (m1 + m2) s
  = String.substring n m1 s +:+ String.substring (n + m1) m2 s.
Proof.
  revert n m1; induction s as [|c s IH]; intros n m1.
  - destruct n, m1, m2; reflexivity.
  - destruct n as [|n]; simpl.
    + destruct m1 as [|m1]; simpl; [reflexivity|].
      by rewrite (IH 0%nat m1).
    + apply (IH n m1).
Qed.

Lemma slice_app (s : string) (a b c : Z) :
  0 <= a -> a <= b -> b <= c -> c <= len s ->
  slice s a b +:+ slice s b c = slice s a c.
Proof.
  intros Ha Hab Hbc Hc. unfold slice, clamp_index.
  assert ((a <? 0) = false) as -> by lia.
  assert ((b <? 0) = false) as -> by lia.
  assert ((c <? 0) = false) as -> by lia.
  rewrite !Z.min_l by lia.
  replace (Z.to_nat (c - a)) with (Z.to_nat (b - a) + Z.to_nat (c - b))%nat by lia.
  rewrite substring_app. do 2 f_equal. lia.
Qed.

Lemma substring_0 (s : string) (n : nat) : String.substring n 0 s = "".
Proof. revert n; induction s as [|c s IH]; intros [|n]; simpl; auto. Qed.

Lemma slice_empty (s : string) (a : Z) : len s <= a -> slice s a (len s) = "".
Proof.
  intros Ha. pose proof (len_nonneg s). unfold slice, clamp_index.
  assert ((a <? 0) = false) as -> by lia.
  assert ((len s <? 0) = false) as -> by lia.
  rewrite Z.min_r by lia. rewrite Z.min_id, Z.sub_diag. apply substring_0.
Qed.

Lemma app_string_empty_r (x : string) : x +:+ "" = x.
Proof. induction x as [|c x IH]; [done | exact (f_equal (String c) IH)]. Qed.

Lemma join_empty_cons (x : string) (l : list string) :
  join "" (x :: l) = x +:+ join "" l.
Proof.
  unfold join. destruct l as [|y l]; [|done].
  symmetry. apply app_string_empty_r.
Qed.

(** Windows that advance by their own width tile the text: joined, their
    slices give back the text from the first start on. *)
Lemma windows_tile (text : string) (size start : Z) ws :
  0 < size -> 0 <= start ->
  windows (len text) size size start ws ->
  join "" (window_text text <$> ws) = slice text start (len text).
Proof.
  intros Hsize Hstart Hws.
  induction Hws as [start Hge | start ws Hlt _ IH].
  - by rewrite slice_empty.
  - rewrite fmap_cons, join_empty_cons, IH by lia.
    unfold window_text. simpl.
    destruct (decide (start + size <= len text)) as [Hfull | Hshort].
    + rewrite Z.min_l by lia. apply slice_app; lia.
    + rewrite Z.min_r by lia. rewrite (slice_empty text (start + size)) by lia.
      apply app_string_empty_r.
Qed.

Lemma windows_count (text_len size step start : Z) ws :
  0 < step ->
  windows text_len size step start ws ->
  Z.of_nat (length ws) = Z.max 0 (window_count (text_len - start) step).
Proof.
  intros Hstep Hws. unfold window_count.
  induction Hws as [start Hge | start ws Hlt _ IH].
  - simpl. assert ((text_len - start + step - 1) / step <= 0); [|lia].
    destruct (decide (text_len - start + step - 1 < 0)) as [Hneg | Hpos].
    + pose proof (Z.div_lt_upper_bound (text_len - start + step - 1) step 0). lia.
    + rewrite Z.div_small; lia.
  - rewrite length_cons, Nat2Z.inj_succ, IH.
    replace (text_len - start + step - 1) with (text_len - start - 1 + 1 * step) by lia.
    rewrite Z.div_add by lia.
    replace (text_len - (start + step) + step - 1) with (text_len - start - 1) by lia.
    assert (0 <= (text_len - start - 1) / step) by (apply Z.div_pos; lia). lia.
Qed.

End SplitterExtras.

Section SplitDocumentExtras.
Import Py.
Context (uuid4 : nat -> string).

(** Every chunk of a split is the chunk document of a window of the
    content. *)
Lemma split_document_chunks self document draws :
  valid_splitter self ->
  ∃ ws,
    windows (len (Document.content document)) (CharacterSplitter.chunk_size self)
      (CharacterSplitter.chunk_size self - CharacterSplitter.chunk_overlap self) 0 ws
    ∧ (∀ fuel, (String.length (Document.content document) <= fuel)%nat →
         CharacterSplitter.split_document uuid4 fuel self document draws
         = Some (chunks_of uuid4 document 0 draws ws, (draws + length ws)%nat))
    ∧ ∀ (k : nat) c, chunks_of uuid4 document 0 draws ws !! k = Some c →
        ∃ w, ws !! k = Some w
          ∧ 0 <= w.1 ∧ w.1 < w.2 ∧ w.2 <= len (Document.content document)
          ∧ w.2 - w.1 <= CharacterSplitter.chunk_size self
          ∧ c = CharacterSplitter.make_chunk uuid4 document (Z.of_nat k) w.1 w.2
                  (draws + k).
Proof.
  intros Hvalid.
  destruct (split_document_returns uuid4 self document draws Hvalid)
    as (ws & Hws & Hret).
  destruct Hvalid as (Hsize & Hov0 & Hov).
  exists ws. split; [done|]. split; [done|].
  intros k c Hk. rewrite chunks_of_lookup in Hk.
  destruct (ws !! k) as [w|] eqn:Hw; [|done]. simpl in Hk.
  exists w. split; [done|].
  destruct (windows_lookup _ _ _ _ _ _ _ Hws Hw) as (H1 & H2 & H3).
  injection Hk as <-. rewrite Z.add_0_l. repeat split; try lia; try nia.
Qed.

End SplitDocumentExtras.

(** X1. Every segment [CharacterSplitter.split_document] emits is the slice
    of the parent content at the offsets its metadata records: the offsets
    satisfy [0 <= start < end <= len content] and [end - start <=
    chunk_size], the content is [content[start:end]] and has [end - start]
    characters, the source is the parent's source (or [unknown]) followed
    by [_chunk_] and the sequence number, and the tags are the parent's. *)
Theorem split_document_segments (uuid4 : nat -> string) (self : CharacterSplitter.t)
    (document : Document.t) (draws : nat) :
  valid_splitter self ->
  ∃ chunks draws',
    (∀ fuel, (String.length (Document.content document) <= fuel)%nat →
       CharacterSplitter.split_document uuid4 fuel self document draws
       = Some (chunks, draws'))
    ∧ ∀ (k : nat) c, chunks !! k = Some c →
        ∃ s e,
          CharacterSplitter.offsets c = Some (s, e)
          ∧ 0 <= s ∧ s < e ∧ e <= Py.len (Document.content document)
          ∧ e - s <= CharacterSplitter.chunk_size self
          ∧ Document.content c = Py.slice (Document.content document) s e
          ∧ Py.len (Document.content c) = e - s
          ∧ Document.source c
            = Some ((match Document.source document with
                     | Some src => if String.eqb src "" then "unknown" else src
                     | None => "unknown"
                     end) +:+ "_chunk_" +:+ pretty (Z.of_nat k))
          ∧ Document.tags c = Document.tags document.
Proof.
  intros Hvalid.
  destruct (split_document_chunks uuid4 self document draws Hvalid)
    as (ws & Hws & Hret & Hchunks).
  do 2 eexists. split; [exact Hret|].
  intros k c Hk. destruct (Hchunks k c Hk) as (w & Hw & H0 & Hlt & Hle & Hsz & ->).
  exists w.1, w.2. rewrite make_chunk_offsets. simpl.
  repeat split; try done. apply len_slice; lia.
Qed.

Lemma split_document_segments_witness :
  ∃ chunks draws',
    (∀ fuel, (String.length (Document.content (Example.doc "abcde")) <= fuel)%nat →
       CharacterSplitter.split_document Example.uuid4 fuel (Example.splitter 3 1)
         (Example.doc "abcde") 0 = Some (chunks, draws'))
    ∧ ∀ (k : nat) c, chunks !! k = Some c →
        ∃ s e,
          CharacterSplitter.offsets c = Some (s, e)
          ∧ 0 <= s ∧ s < e ∧ e <= Py.len (Document.content (Example.doc "abcde"))
          ∧ e - s <= CharacterSplitter.chunk_size (Example.splitter 3 1)
          ∧ Document.content c = Py.slice (Document.content (Example.doc "abcde")) s e
          ∧ Py.len (Document.content c) = e - s
          ∧ Document.source c
            = Some ((match Document.source (Example.doc "abcde") with
                     | Some src => if String.eqb src "" then "unknown" else src
                     | None => "unknown"
                     end) +:+ "_chunk_" +:+ pretty (Z.of_nat k))
          ∧ Document.tags c = Document.tags (Example.doc "abcde").
Proof.
  apply (split_document_segments Example.uuid4 (Example.splitter 3 1)
           (Example.doc "abcde") 0).
  unfold valid_splitter; simpl; lia.
Defined.

(** X2. The metadata of a segment is the parent's metadata with the four
    lineage fields merged in: every other key has the parent's value (or is
    absent as in the parent), and the lineage keys hold the parent id, the
    sequence number and the offsets even when the parent's metadata has
    entries under those keys. *)
Theorem split_document_metadata (uuid4 : nat -> string) (self : CharacterSplitter.t)
    (document : Document.t) (draws : nat) :
  valid_splitter self ->
  ∃ chunks draws',
    (∀ fuel, (String.length (Document.content document) <= fuel)%nat →
       CharacterSplitter.split_document uuid4 fuel self document draws
       = Some (chunks, draws'))
    ∧ ∀ (k : nat) c, chunks !! k = Some c →
        (∀ key, key ∉ lineage_keys →
           Document.metadata c !! key = Document.metadata document !! key)
        ∧ Document.metadata c !! "original_doc_id"
          = Some (Py.VStr (Document.id document))
        ∧ Document.metadata c !! "chunk_sequence" = Some (Py.VInt (Z.of_nat k))
        ∧ ∃ s e,
            Document.metadata c !! "chunk_start_index" = Some (Py.VInt s)
            ∧ Document.metadata c !! "chunk_end_index" = Some (Py.VInt e)
            ∧ Document.content c = Py.slice (Document.content document) s e.
Proof.
  intros Hvalid.
  destruct (split_document_chunks uuid4 self document draws Hvalid)
    as (ws & Hws & Hret & Hchunks).
  do 2 eexists. split; [exact Hret|].
  intros k c Hk. destruct (Hchunks k c Hk) as (w & Hw & _ & _ & _ & _ & ->).
  split; [|split; [|split]].
  - intros key Hkey. unfold lineage_keys in Hkey.
    rewrite !not_elem_of_cons in Hkey. destruct Hkey as (H1 & H2 & H3 & H4 & _).
    simpl. by rewrite !lookup_insert_ne by done.
  - apply make_chunk_lineage.
  - apply make_chunk_lineage.
  - exists w.1, w.2. simpl. split; [|split; [|done]].
    + rewrite lookup_insert_ne by done. by rewrite lookup_insert_eq.
    + by rewrite lookup_insert_eq.
Qed.

Lemma split_document_metadata_witness :
  ∃ chunks draws',
    (∀ fuel, (String.length (Document.content (Example.doc "abcde")) <= fuel)%nat →
       CharacterSplitter.split_document Example.uuid4 fuel (Example.splitter 3 1)
         (Example.doc "abcde") 0 = Some (chunks, draws'))
    ∧ ∀ (k : nat) c, chunks !! k = Some c →
        (∀ key, key ∉ lineage_keys →
           Document.metadata c !! key
           = Document.metadata (Example.doc "abcde") !! key)
        ∧ Document.metadata c !! "original_doc_id"
          = Some (Py.VStr (Document.id (Example.doc "abcde")))
        ∧ Document.metadata c !! "chunk_sequence" = Some (Py.VInt (Z.of_nat k))
        ∧ ∃ s e,
            Document.metadata c !! "chunk_start_index" = Some (Py.VInt s)
            ∧ Document.metadata c !! "chunk_end_index" = Some (Py.VInt e)
            ∧ Document.content c
              = Py.slice (Document.content (Example.doc "abcde")) s e.
Proof.
  apply (split_document_metadata Example.uuid4 (Example.splitter 3 1)
           (Example.doc "abcde") 0).
  unfold valid_splitter; simpl; lia.
Defined.

(** X3. The number of segments of a split is [len content] divided by the
    step [chunk_size - chunk_overlap], rounded up, and the split draws one
    identifier per segment. *)
Theorem split_document_count (uuid4 : nat -> string) (self : CharacterSplitter.t)
    (document : Document.t) (draws : nat) :
  valid_splitter self ->
  ∃ chunks,
    (∀ fuel, (String.length (Document.content document) <= fuel)%nat →
       CharacterSplitter.split_document uuid4 fuel self document draws
       = Some (chunks, (draws + length chunks)%nat))
    ∧ Z.of_nat (length chunks)
      = window_count (Py.len (Document.content document))
          (CharacterSplitter.chunk_size self - CharacterSplitter.chunk_overlap self).
Proof.
  intros Hvalid.
  destruct (split_document_returns uuid4 self document draws Hvalid)
    as (ws & Hws & Hret).
  destruct Hvalid as (Hsize & Hov0 & Hov).
  exists (chunks_of uuid4 document 0 draws ws).
  rewrite chunks_of_length. split; [done|].
  assert (0 < CharacterSplitter.chunk_size self - CharacterSplitter.chunk_overlap self)
    as Hstep by lia.
  rewrite (windows_count _ _ _ _ _ Hstep Hws), Z.sub_0_r.
  pose proof (len_nonneg (Document.content document)).
  assert (0 <= window_count (Py.len (Document.content document))
                 (CharacterSplitter.chunk_size self
                  - CharacterSplitter.chunk_overlap self)); [|lia].
  unfold window_count. apply Z.div_pos; lia.
Qed.

Lemma split_document_count_witness :
  ∃ chunks,
    (∀ fuel, (String.length (Document.content (Example.doc "abcdefghijklmnopqrstuvwxy"))
              <= fuel)%nat →
       CharacterSplitter.split_document Example.uuid4 fuel (Example.splitter 10 3)
         (Example.doc "abcdefghijklmnopqrstuvwxy") 0
       = Some (chunks, (0 + length chunks)%nat))
    ∧ Z.of_nat (length chunks)
      = window_count (Py.len (Document.content (Example.doc "abcdefghijklmnopqrstuvwxy")))
          (CharacterSplitter.chunk_size (Example.splitter 10 3)
           - CharacterSplitter.chunk_overlap (Example.splitter 10 3)).
Proof.
  apply (split_document_count Example.uuid4 (Example.splitter 10 3)
           (Example.doc "abcdefghijklmnopqrstuvwxy") 0).
  unfold valid_splitter; simpl; lia.
Defined.

Section TilingExtras.
Import Py.

Lemma chunks_of_contents uuid4 document chunk_seq draws ws :
  Document.content <$> chunks_of uuid4 document chunk_seq draws ws
  = window_text (Document.content document) <$> ws.
Proof.
  revert chunk_seq draws; induction ws as [|w ws IH]; intros; simpl; [done|].
  by rewrite IH.
Qed.

End TilingExtras.

(** X4. With a zero overlap the segments of [CharacterSplitter] tile the
    content: joined in order they give back the content, no character lost
    and none repeated. *)
Theorem split_document_zero_overlap_joins (uuid4 : nat -> string)
    (self : CharacterSplitter.t) (document : Document.t) (draws : nat) :
  valid_splitter self ->
  CharacterSplitter.chunk_overlap self = 0 ->
  ∃ chunks draws',
    (∀ fuel, (String.length (Document.content document) <= fuel)%nat →
       CharacterSplitter.split_document uuid4 fuel self document draws
       = Some (chunks, draws'))
    ∧ Py.join "" (Document.content <$> chunks) = Document.content document.
Proof.
  intros Hvalid Hzero.
  destruct (split_document_returns uuid4 self document draws Hvalid)
    as (ws & Hws & Hret).
  destruct Hvalid as (Hsize & _ & _).
  do 2 eexists. split; [exact Hret|].
  rewrite chunks_of_contents. rewrite Hzero, Z.sub_0_r in Hws.
  rewrite (windows_tile (Document.content document)
             (CharacterSplitter.chunk_size self) 0 ws);
    [apply slice_all | done | done | done].
Qed.

Lemma split_document_zero_overlap_joins_witness :
  ∃ chunks draws',
    (∀ fuel, (String.length (Document.content (Example.doc "abcdefghijklmnopqrst"))
              <= fuel)%nat →
       CharacterSplitter.split_document Example.uuid4 fuel (Example.splitter 5 0)
         (Example.doc "abcdefghijklmnopqrst") 0 = Some (chunks, draws'))
    ∧ Py.join "" (Document.content <$> chunks)
      = Document.content (Example.doc "abcdefghijklmnopqrst").
Proof.
  apply (split_document_zero_overlap_joins Example.uuid4 (Example.splitter 5 0)
           (Example.doc "abcdefghijklmnopqrst") 0).
  - unfold valid_splitter; simpl; lia.
  - reflexivity.
Defined.

(** X5. A [DocumentChunker] built with [chunk_size >= 1], the method
    [simple] and an overlap that is zero or not below [chunk_size] (which
    the constructor sets to zero) splits every text into chunks that, joined
    in order, give back the text. *)
Theorem split_text_zero_overlap_joins (chunk_size chunk_overlap : Z) (text : string) :
  1 <= chunk_size ->
  chunk_overlap = 0 ∨ chunk_size <= chunk_overlap ->
  ∃ log self chunks,
    DocumentChunker.__init__ chunk_size chunk_overlap "simple" = (log, inr self)
    ∧ (∀ fuel, (String.length text <= fuel)%nat →
         DocumentChunker.split_text fuel self text = Some chunks)
    ∧ Py.join "" chunks = text.
Proof.
  intros Hsize Hov.
  assert (∃ log, DocumentChunker.__init__ chunk_size chunk_overlap "simple"
                 = (log, inr (DocumentChunker.mk chunk_size 0 "simple" None)))
    as [log Hinit].
  { unfold DocumentChunker.__init__.
    destruct (chunk_overlap >=? chunk_size) eqn:Hc; simpl; [eauto|].
    assert (chunk_overlap = 0) as -> by lia. eauto. }
  exists log, (DocumentChunker.mk chunk_size 0 "simple" None).
  destruct (_simple_chunking_returns (DocumentChunker.mk chunk_size 0 "simple" None)
              text) as (ws & Hws & Hret); [simpl; lia|].
  rewrite chunker_step_valid in Hws by (simpl; lia). simpl in Hws.
  rewrite Z.sub_0_r in Hws.
  destruct (Py.len text <=? chunk_size) eqn:Hshort.
  - exists [text]. split; [done|]. split.
    + intros fuel _. unfold DocumentChunker.split_text. simpl. by rewrite Hshort.
    + reflexivity.
  - exists (window_text text <$> ws). split; [done|]. split.
    + intros fuel Hfuel. unfold DocumentChunker.split_text. simpl.
      rewrite Hshort. by apply Hret.
    + rewrite (windows_tile text chunk_size 0 ws); [apply slice_all | lia | done | done].
Qed.

Lemma split_text_zero_overlap_joins_witness :
  ∃ log self chunks,
    DocumentChunker.__init__ 5 7 "simple" = (log, inr self)
    ∧ (∀ fuel, (String.length "abcdefghijklmnopqrst" <= fuel)%nat →
         DocumentChunker.split_text fuel self "abcdefghijklmnopqrst" = Some chunks)
    ∧ Py.join "" chunks = "abcdefghijklmnopqrst".
Proof.
  apply (split_text_zero_overlap_joins 5 7 "abcdefghijklmnopqrst"); [lia|].
  right; lia.
Defined.

(** X6. A [DocumentChunker] built with the method [recursive_char] has no
    library splitter: it returns a text no longer than [chunk_size] as one
    chunk and, for every longer text, an empty list. *)
Theorem split_text_recursive_char (chunk_size chunk_overlap : Z) (text : string) :
  ∃ log self,
    DocumentChunker.__init__ chunk_size chunk_overlap "recursive_char"
    = (log, inr self)
    ∧ ∀ fuel,
        DocumentChunker.split_text fuel self text
        = Some (if Py.len text <=? chunk_size then [text] else []).
Proof.
  unfold DocumentChunker.__init__.
  destruct (chunk_overlap >=? chunk_size); simpl;
    (do 2 eexists; split; [reflexivity|]);
    intros fuel; unfold DocumentChunker.split_text; simpl;
    by destruct (Py.len text <=? chunk_size).
Qed.

(** X7. A negative overlap is accepted by [DocumentChunker] and makes the
    window jump: with [chunk_size >= 1], [chunk_overlap < 0] and a text
    longer than [chunk_size], the character at index [chunk_size] is in no
    chunk. *)
Theorem split_text_negative_overlap_gap (chunk_size chunk_overlap : Z)
    (text : string) :
  1 <= chunk_size -> chunk_overlap < 0 -> chunk_size < Py.len text ->
  ∃ log self ws,
    DocumentChunker.__init__ chunk_size chunk_overlap "simple" = (log, inr self)
    ∧ (∀ fuel, (String.length text <= fuel)%nat →
         DocumentChunker.split_text fuel self text
         = Some (window_text text <$> ws))
    ∧ ¬ covered ws chunk_size.
Proof.
  intros Hsize Hneg Hlong.
  exists [DocumentChunker.LogInfo_simple chunk_size chunk_overlap],
    (DocumentChunker.mk chunk_size chunk_overlap "simple" None).
  destruct (_simple_chunking_returns
              (DocumentChunker.mk chunk_size chunk_overlap "simple" None) text)
    as (ws & Hws & Hret); [simpl; lia|].
  rewrite chunker_step_valid in Hws by (simpl; lia). simpl in Hws.
  exists ws. split; [|split].
  - unfold DocumentChunker.__init__.
    by assert ((chunk_overlap >=? chunk_size) = false) as -> by lia.
  - intros fuel Hfuel. unfold DocumentChunker.split_text. simpl.
    assert ((Py.len text <=? chunk_size) = false) as -> by lia. by apply Hret.
  - intros (w & Hw & Hcov).
    inversion Hws as [|? ws' Hlt Hrest]; subst; [lia|].
    apply elem_of_cons in Hw as [-> | Hw]; simpl in Hcov; [lia|].
    assert (0 < chunk_size - chunk_overlap) as Hstep by lia.
    destruct (windows_elem _ _ _ _ _ _ Hstep Hrest Hw) as (H1 & _ & _). lia.
Qed.

Lemma split_text_negative_overlap_gap_witness :
  ∃ log self ws,
    DocumentChunker.__init__ 3 (-2) "simple" = (log, inr self)
    ∧ (∀ fuel, (String.length "abcdefgh" <= fuel)%nat →
         DocumentChunker.split_text fuel self "abcdefgh"
         = Some (window_text "abcdefgh" <$> ws))
    ∧ ¬ covered ws 3.
Proof.
  apply (split_text_negative_overlap_gap 3 (-2) "abcdefgh"); [lia | lia|].
  vm_compute. reflexivity.
Defined.

(** ** [split_documents] *)

Section SplitDocumentsFacts.
Context {state exn : Type}.
Context (split_document : Document.t -> state -> (exn + list Document.t) * state).

Lemma split_documents_loop_acc documents all_chunks st :
  BaseDocumentSplitter.split_documents_loop split_document documents all_chunks st
  = (all_chunks
     ++ (BaseDocumentSplitter.split_documents split_document documents st).1,
     (BaseDocumentSplitter.split_documents split_document documents st).2).
Proof.
  unfold BaseDocumentSplitter.split_documents.
  revert all_chunks st. induction documents as [|doc documents IH];
    intros all_chunks st; simpl.
  - by rewrite app_nil_r.
  - destruct (split_document doc st) as [[e | chunks] st'].
    + apply IH.
    + rewrite (IH (all_chunks ++ chunks)), (IH ([] ++ chunks)). simpl.
      by rewrite <- app_assoc.
Qed.

Lemma split_documents_cons doc documents st :
  BaseDocumentSplitter.split_documents split_document (doc :: documents) st
  = let '(r, st') := split_document doc st in
    let rest := BaseDocumentSplitter.split_documents split_document documents st' in
    (match r with inr chunks => chunks | inl _ => [] end ++ rest.1, rest.2).
Proof.
  unfold BaseDocumentSplitter.split_documents at 1. simpl.
  destruct (split_document doc st) as [[e | chunks] st'].
  - by rewrite split_documents_loop_acc.
  - by rewrite split_documents_loop_acc.
Qed.

End SplitDocumentsFacts.

(** X8. [split_documents] splits document by document and appends the
    results in order: splitting the concatenation of two batches gives the
    chunks of the first followed by the chunks of the second, split from
    the state the first left.  A document whose [split_document] raises adds
    no chunk and does not stop the documents after it. *)
Theorem split_documents_app {state exn : Type}
    (split_document : Document.t -> state -> (exn + list Document.t) * state)
    (documents1 documents2 : list Document.t) (st : state) :
  let first := BaseDocumentSplitter.split_documents split_document documents1 st in
  let second :=
    BaseDocumentSplitter.split_documents split_document documents2 first.2 in
  BaseDocumentSplitter.split_documents split_document (documents1 ++ documents2) st
  = (first.1 ++ second.1, second.2)
  ∧ ∀ doc e st',
      split_document doc st = (inl e, st') →
      BaseDocumentSplitter.split_documents split_document (doc :: documents2) st
      = BaseDocumentSplitter.split_documents split_document documents2 st'.
Proof.
  split.
  - revert st. induction documents1 as [|doc documents1 IH]; intros st.
    + simpl. by destruct (BaseDocumentSplitter.split_documents _ _ _).
    + simpl. rewrite !split_documents_cons.
      destruct (split_document doc st) as [r st']. simpl.
      rewrite IH. simpl. by rewrite app_assoc.
  - intros doc e st' Hraise. rewrite split_documents_cons, Hraise. simpl.
    by destruct (BaseDocumentSplitter.split_documents _ _ _).
Qed.

(** X9. [split_documents] of a [CharacterSplitter]: no document is skipped;
    the batch yields, for each document, as many chunks as [len content]
    divided by the step and rounded up, and one identifier is drawn per
    chunk. *)
Theorem split_documents_count (uuid4 : nat -> string) (self : CharacterSplitter.t)
    (documents : list Document.t) (draws : nat) :
  valid_splitter self ->
  let result :=
    BaseDocumentSplitter.split_documents (character_split_document uuid4 self)
      documents draws in
  Z.of_nat (length result.1)
  = window_count_sum
      (CharacterSplitter.chunk_size self - CharacterSplitter.chunk_overlap self)
      documents
  ∧ result.2 = (draws + length result.1)%nat.
Proof.
  intros Hvalid. simpl. revert draws.
  induction documents as [|doc documents IH]; intros draws.
  - simpl. split; [done | lia].
  - destruct (split_document_returns uuid4 self doc draws Hvalid) as (ws & Hws & Hret).
    set (chunks := chunks_of uuid4 doc 0 draws ws).
    assert (Z.of_nat (length chunks)
            = window_count (Py.len (Document.content doc))
                (CharacterSplitter.chunk_size self
                 - CharacterSplitter.chunk_overlap self)) as Hn.
    { assert (0 < CharacterSplitter.chunk_size self
                  - CharacterSplitter.chunk_overlap self) as Hstep
        by (destruct Hvalid as (? & ? & ?); lia).
      unfold chunks. rewrite chunks_of_length.
      rewrite (windows_count _ _ _ _ _ Hstep Hws), Z.sub_0_r.
      pose proof (len_nonneg (Document.content doc)).
      assert (0 <= window_count (Py.len (Document.content doc))
                     (CharacterSplitter.chunk_size self
                      - CharacterSplitter.chunk_overlap self)); [|lia].
      unfold window_count. apply Z.div_pos; lia. }
    assert (character_split_document uuid4 self doc draws
            = (inr chunks, (draws + length chunks)%nat)) as Hdoc.
    { unfold character_split_document.
      rewrite (Hret (String.length (Document.content doc))) by done.
      unfold chunks. by rewrite chunks_of_length. }
    rewrite !split_documents_cons, !Hdoc.
    destruct (IH (draws + length chunks)%nat) as [IH1 IH2]. split.
    + cbn [fst snd]. by rewrite length_app, Nat2Z.inj_add, IH1, Hn.
    + cbn [fst snd]. rewrite length_app, IH2. lia.
Qed.

Lemma split_documents_count_witness :
  Z.of_nat (length (BaseDocumentSplitter.split_documents
                      (character_split_document Example.uuid4 (Example.splitter 3 1))
                      [Example.doc "abcde"; Example.doc ""; Example.doc "ab"] 0%nat).1)
  = window_count_sum
      (CharacterSplitter.chunk_size (Example.splitter 3 1)
       - CharacterSplitter.chunk_overlap (Example.splitter 3 1))
      [Example.doc "abcde"; Example.doc ""; Example.doc "ab"]
  ∧ (BaseDocumentSplitter.split_documents
       (character_split_document Example.uuid4 (Example.splitter 3 1))
       [Example.doc "abcde"; Example.doc ""; Example.doc "ab"] 0%nat).2
    = (0 + length (BaseDocumentSplitter.split_documents
                     (character_split_document Example.uuid4 (Example.splitter 3 1))
                     [Example.doc "abcde"; Example.doc ""; Example.doc "ab"] 0).1)%nat.
Proof.
  apply (split_documents_count Example.uuid4 (Example.splitter 3 1)
           [Example.doc "abcde"; Example.doc ""; Example.doc "ab"] 0%nat).
  unfold valid_splitter; simpl; lia.
Defined.

(** * Further properties of the document store *)

Section PathFacts.
Import Py.







Context (urlparse : string -> option FileSystemDocumentStore.ParseResult).
Context (quote : string -> string).


(** [_get_storage_path] raises nothing but the [ValueError] of
    [urlparse]. *)
Lemma storage_path_raises (document_id : string) (e : FileSystemDocumentStore.exn) :
  FileSystemDocumentStore._get_storage_path urlparse quote document_id = inl e ->
  urlparse document_id = None ∧ e = FileSystemDocumentStore.ValueError.
Proof.
  unfold FileSystemDocumentStore._get_storage_path.
  destruct (urlparse document_id); [discriminate | by intros [= <-]].
Qed.

End PathFacts.



Section StoreExtras.
Context (urlparse : string -> option FileSystemDocumentStore.ParseResult).
Context (quote : string -> string).
Context (text_write : string -> list Byte.byte).
Context (text_read : list Byte.byte -> option string).
Context (json_dump : gmap string Py.value -> FileSystemDocumentStore.dump_result).
Context (json_load : list Byte.byte -> FileSystemDocumentStore.load_result).

#[local] Abbreviation path_of :=
  (FileSystemDocumentStore._get_storage_path urlparse quote).
#[local] Abbreviation save :=
  (FileSystemDocumentStore.save_document urlparse quote text_write json_dump).
#[local] Abbreviation retrieve :=
  (FileSystemDocumentStore.retrieve_document urlparse quote text_read json_load).
#[local] Abbreviation delete_doc :=
  (FileSystemDocumentStore.delete_document urlparse quote).








End StoreExtras.

Section StoreTheorems.
Context (urlparse : string -> option FileSystemDocumentStore.ParseResult).
Context (quote : string -> string).
Context (text_write : string -> list Byte.byte).
Context (text_read : list Byte.byte -> option string).
Context (json_dump : gmap string Py.value -> FileSystemDocumentStore.dump_result).
Context (json_load : list Byte.byte -> FileSystemDocumentStore.load_result).

#[local] Abbreviation path_of :=
  (FileSystemDocumentStore._get_storage_path urlparse quote).
#[local] Abbreviation save :=
  (FileSystemDocumentStore.save_document urlparse quote text_write json_dump).
#[local] Abbreviation retrieve :=
  (FileSystemDocumentStore.retrieve_document urlparse quote text_read json_load).
#[local] Abbreviation delete_doc :=
  (FileSystemDocumentStore.delete_document urlparse quote).





End StoreTheorems.





(** * Further properties of the vector index manager *)

Section ManagerExtras.
Import Py.
Context (vector collection : Type) (py_str : value -> string).
Context (encode : list value -> option (list vector)).
Context (upsert : collection -> list string -> list vector -> list value ->
                  list (gmap string value) -> collection * bool).
Context (query : collection -> list vector -> Z -> option (gmap string value) ->
                 option VectorDatabaseManager.query_result).

Lemma collect_cons doc documents text_key id_key ids texts metadatas :
  VectorDatabaseManager.collect py_str (doc :: documents) text_key id_key
    ids texts metadatas
  = if has_id_and_text text_key id_key doc then
      match VectorDatabaseManager.prepare_metadata doc text_key id_key with
      | inl e => inl e
      | inr metadata =>
        VectorDatabaseManager.collect py_str documents text_key id_key
          (ids ++ [py_str (default VNone (doc !! id_key))])
          (texts ++ [default VNone (doc !! text_key)]) (metadatas ++ [metadata])
      end
    else VectorDatabaseManager.collect py_str documents text_key id_key
           ids texts metadatas.
Proof.
  simpl. unfold has_id_and_text.
  by destruct (truthy (default VNone (doc !! id_key))),
    (truthy (default VNone (doc !! text_key))).
Qed.

(** What the loop of [add_documents] appends for the documents it keeps. *)
Lemma collect_kept documents text_key id_key ids texts metadatas
    ids' texts' metadatas' :
  VectorDatabaseManager.collect py_str documents text_key id_key ids texts metadatas
  = inr (ids', texts', metadatas') ->
  let kept := List.filter (has_id_and_text text_key id_key) documents in
  ids' = ids ++ ((λ doc, py_str (default VNone (doc !! id_key))) <$> kept)
  ∧ texts' = texts ++ ((λ doc, default VNone (doc !! text_key)) <$> kept)
  ∧ length metadatas' = (length metadatas + length kept)%nat.
Proof.
  revert ids texts metadatas.
  induction documents as [|doc documents IH]; intros ids texts metadatas.
  - simpl. intros [= <- <- <-]. by rewrite !app_nil_r, Nat.add_0_r.
  - rewrite collect_cons. cbn [List.filter].
    destruct (has_id_and_text text_key id_key doc); [|apply IH].
    destruct (VectorDatabaseManager.prepare_metadata doc text_key id_key)
      as [e | md]; [discriminate|].
    intros Hc. destruct (IH _ _ _ Hc) as (-> & -> & ->).
    rewrite <- !app_assoc, length_app. simpl. repeat split. lia.
Qed.

Lemma collect_none_kept documents text_key id_key ids texts metadatas :
  List.filter (has_id_and_text text_key id_key) documents = [] ->
  VectorDatabaseManager.collect py_str documents text_key id_key ids texts metadatas
  = inr (ids, texts, metadatas).
Proof.
  induction documents as [|doc documents IH]; [done|].
  rewrite collect_cons. cbn [List.filter].
  destruct (has_id_and_text text_key id_key doc); [done | apply IH].
Qed.

Lemma prepare_metadata_inl doc text_key id_key e :
  VectorDatabaseManager.prepare_metadata doc text_key id_key = inl e ->
  ∃ msg, e = VectorDatabaseManager.TypeError msg.
Proof.
  unfold VectorDatabaseManager.prepare_metadata.
  repeat case_match; intros [=]; eauto.
Qed.

(** A kept document whose metadata cannot be prepared stops the loop. *)
Lemma collect_raises documents text_key id_key ids texts metadatas :
  Exists (λ doc, ∃ e, VectorDatabaseManager.prepare_metadata doc text_key id_key
                      = inl e)
    (List.filter (has_id_and_text text_key id_key) documents) ->
  ∃ msg, VectorDatabaseManager.collect py_str documents text_key id_key
           ids texts metadatas = inl (VectorDatabaseManager.TypeError msg).
Proof.
  revert ids texts metadatas.
  induction documents as [|doc documents IH]; intros ids texts metadatas.
  - simpl. intros H. by apply Exists_nil in H.
  - rewrite collect_cons. cbn [List.filter].
    destruct (has_id_and_text text_key id_key doc); [|apply IH].
    intros H.
    destruct (VectorDatabaseManager.prepare_metadata doc text_key id_key)
      as [e | md] eqn:Hmd.
    + destruct (prepare_metadata_inl _ _ _ _ Hmd) as [msg ->]. eauto.
    + apply Exists_cons in H as [[e He] | H]; [congruence | by apply IH].
Qed.

Lemma prepare_metadata_raises doc text_key id_key tags v :
  tags_collection doc = Some tags ->
  v ∈ tags -> VectorDatabaseManager.as_str v = None ->
  ∃ e, VectorDatabaseManager.prepare_metadata doc text_key id_key = inl e.
Proof.
  intros Htags Hv Hnot.
  assert (mapM VectorDatabaseManager.as_str tags = None) as Hstrs.
  { destruct (mapM VectorDatabaseManager.as_str tags) as [strs|] eqn:Hm; [|done].
    apply mapM_as_str in Hm. subst tags.
    apply list_elem_of_fmap in Hv as (s & -> & _). discriminate Hnot. }
  unfold VectorDatabaseManager.prepare_metadata.
  assert (VectorDatabaseManager.join_sorted tags = None) as Hjoin
    by (unfold VectorDatabaseManager.join_sorted; by rewrite Hstrs).
  unfold tags_collection in Htags.
  repeat case_match; try discriminate; simplify_eq; eauto; congruence.
Qed.

Lemma format_results_hits (i : nat) ids distances metadatas documents hits :
  VectorDatabaseManager.format_results i ids distances metadatas documents
  = Some hits ->
  VectorDatabaseManager.hit_id <$> hits = ids
  ∧ ∀ (k : nat) hit, hits !! k = Some hit →
      distances !! (i + k)%nat = Some (VectorDatabaseManager.hit_distance hit)
      ∧ metadatas !! (i + k)%nat = Some (VectorDatabaseManager.hit_metadata hit)
      ∧ documents !! (i + k)%nat = Some (VectorDatabaseManager.hit_document hit).
Proof.
  revert i hits. induction ids as [|doc_id ids IH]; intros i hits; simpl.
  - intros [= <-]. split; [done|]. intros k hit Hk. by rewrite lookup_nil in Hk.
  - destruct (distances !! i) as [d|] eqn:Hd; [|done].
    destruct (metadatas !! i) as [m|] eqn:Hm; [|done].
    destruct (documents !! i) as [t|] eqn:Ht; [|done]. simpl.
    destruct (VectorDatabaseManager.format_results (S i) ids distances metadatas
                documents) as [rest|] eqn:Hrest; [|done].
    simpl. intros [= <-]. destruct (IH _ _ Hrest) as [Hids Hrows].
    split; [rewrite fmap_cons; by rewrite Hids|].
    intros [|k] hit Hk; simpl in Hk.
    + injection Hk as <-. by rewrite Nat.add_0_r.
    + replace (i + S k)%nat with (S i + k)%nat by lia. by apply Hrows.
Qed.

End ManagerExtras.

Section ManagerTheorems.
Context (vector collection : Type) (py_str : Py.value -> string).
Context (encode : list Py.value -> option (list vector)).
Context (upsert : collection -> list string -> list vector -> list Py.value ->
                  list (gmap string Py.value) -> collection * bool).
Context (query : collection -> list vector -> Z -> option (gmap string Py.value) ->
                 option VectorDatabaseManager.query_result).

#[local] Abbreviation add_documents :=
  (VectorDatabaseManager.add_documents vector collection py_str encode upsert).
#[local] Abbreviation search :=
  (VectorDatabaseManager.search vector collection encode query).

(** X15. When no document of the batch has both an id and a text (the
    batch is empty, or every document is skipped), [add_documents] returns
    without calling the embedding model or the backend, and leaves the
    collection as it is. *)
Theorem add_documents_nothing_kept (coll : collection)
    (documents : list (gmap string Py.value)) (text_key id_key : string) :
  List.filter (has_id_and_text text_key id_key) documents = [] ->
  add_documents coll documents text_key id_key = ([], coll, None).
Proof.
  intros Hnone. unfold VectorDatabaseManager.add_documents.
  destruct documents as [|doc documents]; [done|].
  by rewrite collect_none_kept.
Qed.

(** X16. The one upsert [add_documents] makes is aligned: its ids are the
    [str] of the ids of the kept documents, in order, its texts are their
    texts, its embeddings are what the model returned for exactly these
    texts, and it carries one metadata map per id. *)
Theorem add_documents_upsert_aligned (coll : collection)
    (documents : list (gmap string Py.value)) (text_key id_key : string)
    (ids : list string) (embeddings : list vector) (texts : list Py.value)
    (metadatas : list (gmap string Py.value)) :
  VectorDatabaseManager.CallUpsert vector ids embeddings texts metadatas
    ∈ (add_documents coll documents text_key id_key).1.1 ->
  let kept := List.filter (has_id_and_text text_key id_key) documents in
  ids = (λ doc, py_str (default Py.VNone (doc !! id_key))) <$> kept
  ∧ texts = (λ doc, default Py.VNone (doc !! text_key)) <$> kept
  ∧ encode texts = Some embeddings
  ∧ length metadatas = length ids
  ∧ length texts = length ids
  ∧ ids ≠ []
  ∧ (add_documents coll documents text_key id_key).1.1
    = [VectorDatabaseManager.CallEncode vector texts;
       VectorDatabaseManager.CallUpsert vector ids embeddings texts metadatas].
Proof.
  intros Hcall kept. unfold VectorDatabaseManager.add_documents in *.
  destruct documents as [|doc documents]; [by apply elem_of_nil in Hcall|].
  destruct (VectorDatabaseManager.collect py_str (doc :: documents)
              text_key id_key [] [] []) as [e | [[ids' texts'] metadatas']] eqn:Hc;
    [by apply elem_of_nil in Hcall|].
  apply collect_kept in Hc as (Hids & Htexts & Hlen). simpl in Hids, Htexts, Hlen.
  fold kept in Hids, Htexts, Hlen.
  assert (ids' ≠ []) as Hne.
  { intros ->. by apply elem_of_nil in Hcall. }
  destruct (encode texts') as [embeddings'|] eqn:Henc; simpl in Hcall.
  2:{ destruct ids'; [done|]. apply list_elem_of_singleton in Hcall. discriminate. }
  assert (ids = ids' ∧ embeddings = embeddings' ∧ texts = texts'
          ∧ metadatas = metadatas') as (-> & -> & -> & ->).
  { destruct ids'; [done|].
    destruct (upsert coll _ embeddings' texts' metadatas') as [coll' []];
      simpl in Hcall;
      apply elem_of_cons in Hcall as [Hcall | Hcall]; try discriminate;
      apply list_elem_of_singleton in Hcall; by inversion Hcall. }
  split; [done|]. split; [done|]. split; [done|].
  split; [by rewrite Hlen, Hids, length_fmap|].
  split; [by rewrite Htexts, Hids, !length_fmap|]. split; [done|].
  destruct ids' as [|i' ids'']; [done|].
  by destruct (upsert coll _ embeddings' texts' metadatas') as [coll' []].
Qed.

(** X17. One kept document whose list- or set-valued [tags] hold an element
    that is not a [str] makes [add_documents] raise [TypeError] before the
    embedding model or the backend is called: nothing of the batch is
    added. *)
Theorem add_documents_bad_tags_abort (coll : collection)
    (documents : list (gmap string Py.value)) (text_key id_key : string)
    (doc : gmap string Py.value) (tags : list Py.value) (v : Py.value) :
  doc ∈ documents ->
  has_id_and_text text_key id_key doc = true ->
  tags_collection doc = Some tags ->
  v ∈ tags -> VectorDatabaseManager.as_str v = None ->
  ∃ msg,
    add_documents coll documents text_key id_key
    = ([], coll, Some (VectorDatabaseManager.TypeError msg)).
Proof.
  intros Hdoc Hkept Htags Hv Hnot.
  destruct (collect_raises py_str documents text_key id_key [] [] []) as [msg Hc].
  { apply Exists_exists. exists doc. split.
    - apply list_elem_of_In, filter_In. by rewrite <- list_elem_of_In.
    - by apply (prepare_metadata_raises doc text_key id_key tags v). }
  exists msg. unfold VectorDatabaseManager.add_documents.
  destruct documents as [|doc' documents]; [by apply elem_of_nil in Hdoc|].
  by rewrite Hc.
Qed.

(** X18. What [search] returns follows the backend row by row: the hits
    are as many as the ids of the first result row and in the same order,
    and hit [k] pairs the [k]-th id with the [k]-th distance, metadata and
    document; [search] neither reorders nor drops nor adds results. *)
Theorem search_hits_follow_backend (coll : collection) (query_text : string)
    (n_results : Z) (filter_metadata : option (gmap string Py.value))
    (hits : list VectorDatabaseManager.hit) :
  (search coll query_text n_results filter_metadata).2 = inr hits ->
  ∃ query_embedding results ids distances metadatas documents,
    encode [Py.VStr query_text] = Some query_embedding
    ∧ query coll query_embedding n_results filter_metadata = Some results
    ∧ head (default [[]] (VectorDatabaseManager.res_ids results)) = Some ids
    ∧ head (default [[]] (VectorDatabaseManager.res_distances results))
      = Some distances
    ∧ head (default [[]] (VectorDatabaseManager.res_metadatas results))
      = Some metadatas
    ∧ head (default [[]] (VectorDatabaseManager.res_documents results))
      = Some documents
    ∧ VectorDatabaseManager.hit_id <$> hits = ids
    ∧ length hits = length ids
    ∧ ∀ (k : nat) hit, hits !! k = Some hit →
        distances !! k = Some (VectorDatabaseManager.hit_distance hit)
        ∧ metadatas !! k = Some (VectorDatabaseManager.hit_metadata hit)
        ∧ documents !! k = Some (VectorDatabaseManager.hit_document hit).
Proof.
  unfold VectorDatabaseManager.search. intros Hsearch.
  destruct (encode [Py.VStr query_text]) as [query_embedding|] eqn:Hencode;
    [|done].
  destruct (query coll query_embedding n_results filter_metadata)
    as [results|] eqn:Hquery; [|done].
  destruct (head (default [[]] (VectorDatabaseManager.res_ids results)))
    as [ids|] eqn:Hi; [|done].
  destruct (head (default [[]] (VectorDatabaseManager.res_distances results)))
    as [distances|] eqn:Hd; [|done].
  destruct (head (default [[]] (VectorDatabaseManager.res_metadatas results)))
    as [metadatas|] eqn:Hm; [|done].
  destruct (head (default [[]] (VectorDatabaseManager.res_documents results)))
    as [documents|] eqn:Ht; [|done].
  destruct (VectorDatabaseManager.format_results 0 ids distances metadatas documents)
    as [formatted|] eqn:Hformat; [|done].
  simpl in Hsearch. injection Hsearch as <-.
  destruct (format_results_hits _ _ _ _ _ _ Hformat) as [Hids Hrows].
  exists query_embedding, results, ids, distances, metadatas, documents.
  do 7 (split; [done|]).
  split; [by rewrite <- Hids, length_fmap|]. exact Hrows.
Qed.

End ManagerTheorems.

Lemma add_documents_nothing_kept_witness :
  VectorDatabaseManager.add_documents ExampleBackend.vector
    ExampleBackend.collection ExampleBackend.py_str ExampleBackend.encode
    ExampleBackend.upsert ExampleSearch.stored
    [{["url" := Py.VStr "doc2"]}; {["cleaned_text" := Py.VStr "No id."]}]
    "cleaned_text" "url"
  = ([], ExampleSearch.stored, None).
Proof.
  apply (add_documents_nothing_kept ExampleBackend.vector
           ExampleBackend.collection ExampleBackend.py_str ExampleBackend.encode
           ExampleBackend.upsert).
  vm_compute. reflexivity.
Defined.

Lemma add_documents_upsert_aligned_witness :
  let kept :=
    List.filter (has_id_and_text "cleaned_text" "url")
      [ExampleBackend.doc1; {["url" := Py.VStr "doc2"]}] in
  ["doc1"]
  = (λ doc, ExampleBackend.py_str (default Py.VNone (doc !! "url"))) <$> kept
  ∧ [Py.VStr "Federal reserve raises interest rates."]
    = (λ doc, default Py.VNone (doc !! "cleaned_text")) <$> kept
  ∧ ExampleBackend.encode [Py.VStr "Federal reserve raises interest rates."]
    = Some [[38]]
  ∧ length [ExampleSearch.metadata1] = length ["doc1"]
  ∧ length [Py.VStr "Federal reserve raises interest rates."] = length ["doc1"]
  ∧ ["doc1"] ≠ []
  ∧ (VectorDatabaseManager.add_documents ExampleBackend.vector
       ExampleBackend.collection ExampleBackend.py_str ExampleBackend.encode
       ExampleBackend.upsert []
       [ExampleBackend.doc1; {["url" := Py.VStr "doc2"]}]
       "cleaned_text" "url").1.1
    = [VectorDatabaseManager.CallEncode ExampleBackend.vector
         [Py.VStr "Federal reserve raises interest rates."];
       VectorDatabaseManager.CallUpsert ExampleBackend.vector ["doc1"] [[38]]
         [Py.VStr "Federal reserve raises interest rates."]
         [ExampleSearch.metadata1]].
Proof.
  apply (add_documents_upsert_aligned ExampleBackend.vector
           ExampleBackend.collection ExampleBackend.py_str ExampleBackend.encode
           ExampleBackend.upsert []
           [ExampleBackend.doc1; {["url" := Py.VStr "doc2"]}] "cleaned_text" "url"
           ["doc1"] [[38]] [Py.VStr "Federal reserve raises interest rates."]
           [ExampleSearch.metadata1]).
  apply list_elem_of_lookup. exists 1%nat. vm_compute. reflexivity.
Defined.

Lemma add_documents_bad_tags_abort_witness :
  ∃ msg,
    VectorDatabaseManager.add_documents ExampleBackend.vector
      ExampleBackend.collection ExampleBackend.py_str ExampleBackend.encode
      ExampleBackend.upsert ExampleSearch.stored
      [ExampleBackend.doc1; ExampleSearch.doc_bad_tags] "cleaned_text" "url"
    = ([], ExampleSearch.stored, Some (VectorDatabaseManager.TypeError msg)).
Proof.
  apply (add_documents_bad_tags_abort ExampleBackend.vector
           ExampleBackend.collection ExampleBackend.py_str ExampleBackend.encode
           ExampleBackend.upsert ExampleSearch.stored
           [ExampleBackend.doc1; ExampleSearch.doc_bad_tags] "cleaned_text" "url"
           ExampleSearch.doc_bad_tags [Py.VStr "rates"; Py.VInt 7] (Py.VInt 7)).
  - apply list_elem_of_lookup. exists 1%nat. reflexivity.
  - vm_compute. reflexivity.
  - vm_compute. reflexivity.
  - apply list_elem_of_lookup. exists 1%nat. reflexivity.
  - reflexivity.
Defined.

Lemma search_hits_follow_backend_witness :
  ∃ query_embedding results ids distances metadatas documents,
    ExampleBackend.encode [Py.VStr "rates"] = Some query_embedding
    ∧ ExampleBackend.query ExampleSearch.stored query_embedding 5 None
      = Some results
    ∧ head (default [[]] (VectorDatabaseManager.res_ids results)) = Some ids
    ∧ head (default [[]] (VectorDatabaseManager.res_distances results))
      = Some distances
    ∧ head (default [[]] (VectorDatabaseManager.res_metadatas results))
      = Some metadatas
    ∧ head (default [[]] (VectorDatabaseManager.res_documents results))
      = Some documents
    ∧ VectorDatabaseManager.hit_id <$> [ExampleSearch.hit1] = ids
    ∧ length [ExampleSearch.hit1] = length ids
    ∧ ∀ (k : nat) hit, [ExampleSearch.hit1] !! k = Some hit →
        distances !! k = Some (VectorDatabaseManager.hit_distance hit)
        ∧ metadatas !! k = Some (VectorDatabaseManager.hit_metadata hit)
        ∧ documents !! k = Some (VectorDatabaseManager.hit_document hit).
Proof.
  apply (search_hits_follow_backend ExampleBackend.vector
           ExampleBackend.collection ExampleBackend.encode ExampleBackend.query
           ExampleSearch.stored "rates" 5 None [ExampleSearch.hit1]).
  vm_compute. reflexivity.
Defined.
